(** * FinLyzer: the stock-analysis core ([src/stock_analyzer.py])

    A shallow embedding of [StockAnalyzer]: the symbol normaliser, the
    fetcher with its candidate retries, the derived metrics, the batch
    driver and the correlation engine, followed by the properties the
    specification states about them. *)

From Stdlib Require Import ZArith List String Ascii Bool Lia Sorted.
From Stdlib Require Import Floats.
From Stdlib Require Import QArith Qreals Reals Psatz.
From stdpp Require Import base option list strings gmap sorting.

Local Open Scope string_scope.
Local Open Scope list_scope.

(** ** Python strings

    A [str] is modelled as a Rocq [string] of one-byte characters.  The
    tickers the code handles are ASCII; [upper] and [strip] are the ASCII
    restrictions of [str.upper] and [str.strip]. *)

Module PyStr.

(** [c.upper()] on one character: [a]..[z] go to [A]..[Z]. *)
Definition upper_ascii (c : ascii) : ascii :=
  let n := nat_of_ascii c in
  if (97 <=? n)%nat && (n <=? 122)%nat then ascii_of_nat (n - 32) else c.

(** [s.upper()] *)
Fixpoint upper (s : string) : string :=
  match s with
  | EmptyString => EmptyString
  | String c s' => String (upper_ascii c) (upper s')
  end.

(** [c.isspace()] on ASCII: tab, LF, VT, FF, CR, FS, GS, RS, US, space. *)
Definition isspace (c : ascii) : bool :=
  let n := nat_of_ascii c in
  ((9 <=? n)%nat && (n <=? 13)%nat) || ((28 <=? n)%nat && (n <=? 32)%nat).

(** [s.lstrip()] *)
Fixpoint lstrip (s : string) : string :=
  match s with
  | EmptyString => EmptyString
  | String c s' => if isspace c then lstrip s' else s
  end.

(** [s.rstrip()]: a character is dropped when it is white space and
    everything after it has been dropped. *)
Fixpoint rstrip (s : string) : string :=
  match s with
  | EmptyString => EmptyString
  | String c s' =>
      match rstrip s' with
      | EmptyString => if isspace c then EmptyString else String c EmptyString
      | r => String c r
      end
  end.

(** [s.strip()] *)
Definition strip (s : string) : string := rstrip (lstrip s).

(** [s.startswith(p)] *)
Fixpoint startswith (p s : string) : bool :=
  match p, s with
  | EmptyString, _ => true
  | String a p', String b s' => if Ascii.eqb a b then startswith p' s' else false
  | String _ _, EmptyString => false
  end.

(** [p in s]: [p] occurs in [s] as a contiguous substring. *)
Fixpoint contains (p s : string) : bool :=
  startswith p s ||
  match s with
  | EmptyString => false
  | String _ s' => contains p s'
  end.

(** [s.endswith(p)] *)
Fixpoint endswith (p s : string) : bool :=
  String.eqb p s ||
  match s with
  | EmptyString => false
  | String _ s' => endswith p s'
  end.

(** [len(s)] *)
Definition len (s : string) : nat := String.length s.

(** [s * n], the [n]-fold repetition of [s]. *)
Fixpoint repeat (s : string) (n : nat) : string :=
  match n with
  | O => EmptyString
  | S n' => (s ++ repeat s n')%string
  end.

End PyStr.

(** ** Symbol normaliser *)

(** The hard-coded list of line 27, in the source's order (with its
    repeated ["CONCOR"]). *)
Definition indian_patterns : list string :=
  [ "RELIANCE"; "TCS"; "INFY"; "HDFCBANK"; "ICICIBANK"; "SBIN"; "ITC";
    "HINDUNILVR"; "BHARTIARTL"; "KOTAKBANK"; "LT"; "ASIANPAINT"; "MARUTI";
    "TITAN"; "NESTLEIND"; "ULTRACEMCO"; "POWERGRID"; "NTPC"; "ONGC";
    "COALINDIA"; "WIPRO"; "TECHM"; "HCLTECH"; "DRREDDY"; "SUNPHARMA";
    "CIPLA"; "DIVISLAB"; "BAJFINANCE"; "BAJAJFINSV"; "AXISBANK";
    "INDUSINDBK"; "TATAMOTORS"; "TATASTEEL"; "JSWSTEEL"; "HINDALCO";
    "ADANIPORTS"; "ADANIENT"; "GRASIM"; "BRITANNIA"; "HEROMOTOCO";
    "BAJAJ-AUTO"; "EICHERMOT"; "BPCL"; "IOC"; "SHREECEM"; "AMBUJACEM";
    "ACC"; "VEDL"; "SAIL"; "NMDC"; "JINDALSTEL"; "TATACHEM"; "UPL";
    "PIDILITIND"; "DMART"; "GODREJCP"; "MARICO"; "DABUR"; "COLPAL"; "PGHH";
    "MCDOWELL-N"; "UBL"; "APOLLOHOSP"; "FORTIS"; "LUPIN"; "BIOCON";
    "CADILAHC"; "AUROPHARMA"; "TORNTPHARM"; "ALKEM"; "CONCOR"; "SIEMENS";
    "ABB"; "BHEL"; "CROMPTON"; "HAVELLS"; "VOLTAS"; "BLUESTAR";
    "CUMMINSIND"; "BOSCHLTD"; "MOTHERSUMI"; "AMARAJABAT"; "EXIDEIND";
    "MFSL"; "SRTRANSFIN"; "CHOLAFIN"; "PFC"; "RECLTD"; "IRCTC"; "CONCOR";
    "FINOPB"; "INOXGREEN" ].

(** [symbol.upper().strip()], the first statement of [_normalize_symbol]. *)
Definition clean (symbol : string) : string := PyStr.strip (PyStr.upper symbol).

(** [any(pattern in symbol for pattern in indian_patterns) or len(symbol) > 6] *)
Definition looks_indian (symbol : string) : bool :=
  existsb (fun pattern => PyStr.contains pattern symbol) indian_patterns
  || (6 <? PyStr.len symbol)%nat.

(** [_normalize_symbol], lines 18-35. *)
Definition _normalize_symbol (symbol : string) : string :=
  let symbol := clean symbol in
  if PyStr.contains "." symbol then symbol
  else if looks_indian symbol then (symbol ++ ".NS")%string
  else symbol.

(** ** Python values and the provider

    The provider's quote snapshot ([ticker.info]) is a [dict] from field
    names to JSON values.  Numbers are IEEE-754 doubles (a Python [int]
    from the provider is represented by its double); [None] is [PNone]. *)

Inductive pyval : Type :=
| PNone
| PNum (x : float)
| PStr (s : string).

(** [bool(v)] *)
Definition truthy (v : pyval) : bool :=
  match v with
  | PNone => false
  | PNum x => negb (x =? 0)%float
  | PStr s => negb (String.eqb s "")
  end.

(** [v is None] *)
Definition is_none (v : pyval) : bool :=
  match v with PNone => true | _ => false end.

(** [v == 0] *)
Definition eq_zero (v : pyval) : bool :=
  match v with PNum x => (x =? 0)%float | _ => false end.

(** [info.get(key)] and [info.get(key, default)] *)
Definition dict_get (info : gmap string pyval) (key : string) : pyval :=
  default PNone (info !! key).
Definition dict_get_or (info : gmap string pyval) (key : string) (d : pyval) : pyval :=
  default d (info !! key).

(** [a or b] *)
Definition py_or (a b : pyval) : pyval := if truthy a then a else b.

(** [v * 100]: numeric product, string repetition, [TypeError] on [None]
    ([None] of the result is the raised exception). *)
Definition py_mul100 (v : pyval) : option pyval :=
  match v with
  | PNum x => Some (PNum (x * 100)%float)
  | PStr s => Some (PStr (PyStr.repeat s 100))
  | PNone => None
  end.

(** One row of [ticker.history(...)]: the index date (as a day number) and
    the two columns the code reads. *)
Record bar : Type := Bar { bar_date : Z; Close : float; Volume : float }.

(** [hist_data['Close']], a Series: index and values. *)
Definition close_series (hist : list bar) : list (Z * float) :=
  map (fun b => (bar_date b, Close b)) hist.

(** [df.empty] / [series.empty] *)
Definition is_empty {A : Type} (l : list A) : bool :=
  match l with [] => true | _ => false end.

(** [series.iloc[0]] and [series.iloc[-1]]; [None] is [IndexError]. *)
Definition iloc_first {A : Type} (l : list A) : option A := head l.
Definition iloc_last {A : Type} (l : list A) : option A := last l.

(** The market-data provider behind [yf.Ticker(sym)]: the quote snapshot
    and the 6-month history of a symbol, each of which may raise
    ([None]). *)
Record yfinance : Type := YF {
  ticker_info : string -> option (gmap string pyval);
  ticker_history : string -> option (list bar)
}.

(** ** The record built by [get_stock_info] (lines 90-107)

    The two fields the code always sets to a number are doubles; the
    [int] 0 of lines 79 and 94 is the double 0. *)

Record stock_data : Type := StockData {
  symbol : string;
  normalized_symbol : string;
  company_name : pyval;
  current_price : float;
  six_month_change : float;
  pe_ratio : pyval;
  forward_pe : pyval;
  dividend_yield : pyval;
  price_to_book : pyval;
  debt_to_equity : pyval;
  roe : pyval;
  market_cap : pyval;
  volume : pyval;
  price_history : list (Z * float);
  currency : pyval;
  exchange : pyval
}.

(** ** A monad for the body of [get_stock_info]

    The state is the log of symbols for which [yf.Ticker] was built, in
    order; a computation either returns a value or raises. *)

Definition M (A : Type) : Type := list string -> option A * list string.

#[global] Instance M_ret : MRet M := fun A a log => (Some a, log).
#[global] Instance M_bind : MBind M := fun A B k m log =>
  match m log with
  | (Some a, log') => k a log'
  | (None, log') => (None, log')
  end.

(** An operation that may raise. *)
Definition lift {A : Type} (o : option A) : M A := fun log => (o, log).

(** [yf.Ticker(sym)] *)
Definition Ticker (sym : string) : M string := fun log => (Some sym, log ++ [sym]).

(** ** The fetcher, [get_stock_info] (lines 37-113) *)

Section Fetcher.

(** Python's [float(s)] on a [str]: the parsed double, or [None] for
    [ValueError].  The parser is Python's own and is left abstract. *)
Variable float_of_str : string -> option float.

(** [float(v)] *)
Definition py_float (v : pyval) : option float :=
  match v with
  | PNum x => Some x
  | PStr s => float_of_str s
  | PNone => None
  end.

(** Lines 75-79. *)
Definition calc_six_month_change (hist : list bar) : option float :=
  if (1 <? length hist)%nat then
    c_last ← iloc_last (map Close hist);
    c_first ← iloc_first (map Close hist);
    Some (((c_last - c_first) / c_first) * 100)%float
  else Some 0%float.

(** Lines 82-84: the price before its conversion on line 94. *)
Definition pick_current_price (info : gmap string pyval) (hist : list bar)
  : option pyval :=
  let current_price := dict_get info "currentPrice" in
  if is_none current_price || eq_zero current_price then
    if negb (is_empty hist) then PNum <$> iloc_last (map Close hist)
    else Some (PNum 0%float)
  else Some current_price.

(** [info.get(key, 0) * 100 if info.get(key) else None], lines 98 and 101. *)
Definition percent_field (info : gmap string pyval) (key : string)
  : option pyval :=
  if truthy (dict_get info key) then py_mul100 (dict_get_or info key (PNum 0%float))
  else Some PNone.

(** Lines 75-109: the record built from the accepted snapshot and history.
    [None] is an exception raised on the way. *)
Definition build_stock_data (sym normalized : string)
    (info : gmap string pyval) (hist : list bar) : option stock_data :=
  change ← calc_six_month_change hist;
  price ← pick_current_price info hist;
  let name := py_or (py_or (dict_get info "longName") (dict_get info "shortName"))
                    (PStr sym) in
  price_f ← (if truthy price then py_float price else Some 0%float);
  dy ← percent_field info "dividendYield";
  r ← percent_field info "returnOnEquity";
  vol_default ← (if negb (is_empty hist) then PNum <$> iloc_last (map Volume hist)
                 else Some (PStr "N/A"));
  Some {| symbol := sym;
          normalized_symbol := normalized;
          company_name := name;
          current_price := price_f;
          six_month_change := change;
          pe_ratio := dict_get_or info "trailingPE" (PStr "N/A");
          forward_pe := dict_get_or info "forwardPE" (PStr "N/A");
          dividend_yield := dy;
          price_to_book := dict_get_or info "priceToBook" (PStr "N/A");
          debt_to_equity := dict_get_or info "debtToEquity" (PStr "N/A");
          roe := r;
          market_cap := dict_get_or info "marketCap" (PStr "N/A");
          volume := dict_get_or info "volume" vol_default;
          price_history := close_series hist;
          currency := dict_get_or info "currency" (PStr "USD");
          exchange := dict_get_or info "exchange" (PStr "Unknown") |}.

(** [ticker = yf.Ticker(sym); info = ticker.info;
     hist_data = ticker.history(...)] *)
Definition fetch (yf : yfinance) (sym : string)
  : M (gmap string pyval * list bar) :=
  t ← Ticker sym;
  info ← lift (ticker_info yf t);
  hist ← lift (ticker_history yf t);
  mret (info, hist).

(** The [for suffix in ['.NS', '.BO']] loop of lines 61-69, on the local
    variables [info], [hist_data] and [normalized_symbol]. *)
Fixpoint try_suffixes (yf : yfinance) (sym : string) (suffixes : list string)
    (st : gmap string pyval * list bar * string)
  : M (gmap string pyval * list bar * string) :=
  match suffixes with
  | [] => mret st
  | suffix :: rest =>
      let try_symbol := (sym ++ suffix)%string in
      '(info, hist) ← fetch yf try_symbol;
      if negb (is_empty hist) then mret (info, hist, try_symbol)
      else try_suffixes yf sym rest (info, hist, st.2)
  end.

(** The body of the [try] block, lines 40-109.  The value [None] is the
    [return None] of line 73; a raised exception is the monad's. *)
Definition get_stock_info_body (yf : yfinance) (sym : string)
  : M (option stock_data) :=
  let normalized_symbol := _normalize_symbol sym in
  '(info, hist) ← fetch yf normalized_symbol;
  '(info, hist, normalized_symbol) ←
    (if is_empty hist && PyStr.endswith ".NS" normalized_symbol then
       let bse_symbol := (sym ++ ".BO")%string in
       '(info, hist) ← fetch yf bse_symbol;
       mret (info, hist, bse_symbol)
     else mret (info, hist, normalized_symbol));
  '(info, hist, normalized_symbol) ←
    (if is_empty hist && negb (PyStr.contains "." normalized_symbol) then
       try_suffixes yf sym [".NS"; ".BO"] (info, hist, normalized_symbol)
     else mret (info, hist, normalized_symbol));
  if is_empty hist then mret None
  else stock_data ← lift (build_stock_data sym normalized_symbol info hist);
       mret (Some stock_data).

(** [get_stock_info]: the body under [try], with [except Exception]
    returning [None] (line 113). *)
Definition get_stock_info (yf : yfinance) (sym : string) : option stock_data :=
  match (get_stock_info_body yf sym []).1 with
  | Some r => r
  | None => None
  end.

(** The symbols for which [get_stock_info] built a [yf.Ticker], in order. *)
Definition tried (yf : yfinance) (sym : string) : list string :=
  (get_stock_info_body yf sym []).2.

(** ** The batch driver, [analyze_stocks] (lines 115-127) *)

(** One iteration of the loop, lines 120-125. *)
Definition analyze_step (yf : yfinance) (results : gmap string stock_data)
    (sym : string) : gmap string stock_data :=
  match get_stock_info yf sym with
  | Some stock_data => <[sym := stock_data]> results
  | None => results
  end.

Definition analyze_stocks (yf : yfinance) (symbols : list string)
  : gmap string stock_data :=
  foldl (analyze_step yf) ∅ symbols.

End Fetcher.

(** ** Resolution order

    The symbols [get_stock_info] may consult, in order, read off the three
    conditions of lines 51, 60 and 61: a normalised symbol ending in
    [.NS] is followed by the raw input with [.BO]; any other dotted symbol
    stands alone; a bare symbol is followed by the raw input with [.NS]
    and with [.BO]. *)
Definition candidates (sym : string) : list string :=
  let normalized_symbol := _normalize_symbol sym in
  if PyStr.endswith ".NS" normalized_symbol then
    [normalized_symbol; (sym ++ ".BO")%string]
  else if PyStr.contains "." normalized_symbol then
    [normalized_symbol]
  else
    [normalized_symbol; (sym ++ ".NS")%string; (sym ++ ".BO")%string].

(** A candidate for which the provider answers with an empty history. *)
Definition quiet_empty (yf : yfinance) (c : string) : Prop :=
  (exists info, ticker_info yf c = Some info) /\ ticker_history yf c = Some [].

(** A candidate at which the provider raises. *)
Definition raises_at (yf : yfinance) (c : string) : Prop :=
  ticker_info yf c = None \/ ticker_history yf c = None.

Section Scan.

Variable float_of_str : string -> option float.

(** Walking a list of candidates the way the body does: fetch, go on while
    the history is empty, build the record at the first non-empty one. *)
Fixpoint scan (yf : yfinance) (sym : string) (cands : list string)
  : M (option stock_data) :=
  match cands with
  | [] => mret None
  | c :: rest =>
      '(info, hist) ← fetch yf c;
      if is_empty hist then scan yf sym rest
      else stock_data ← lift (build_stock_data float_of_str sym c info hist);
           mret (Some stock_data)
  end.

End Scan.

(** ** The correlation engine, [calculate_correlations] (lines 129-156) *)

(** Lines 133-137: the [price_data] dictionary, the non-empty price
    histories by symbol.  (A [stock_data] record always has its
    ['price_history'] key.)  Dictionaries are finite maps: the matrix is
    read by label, so the order of insertion plays no role. *)
Definition price_data (stock_data : gmap string stock_data)
  : gmap string (list (Z * float)) :=
  omap (fun data => if negb (is_empty (price_history data))
                    then Some (price_history data) else None) stock_data.

(** The records that have a non-empty price series. *)
Definition usable (records : gmap string stock_data)
  : gmap string stock_data :=
  filter (fun kv => price_history kv.2 <> []) records.

(** The value of a series at a date of its index. *)
Fixpoint series_at (series : list (Z * float)) (d : Z) : option float :=
  match series with
  | [] => None
  | (d', v) :: rest => if (d' =? d)%Z then Some v else series_at rest d
  end.

(** Reindexing a series on a larger index: [NaN] where the date is
    absent. *)
Definition reindex (series : list (Z * float)) (d : Z) : float :=
  default nan (series_at series d).

(** Two indexes are equal, date for date. *)
Fixpoint same_dates (l k : list Z) : bool :=
  match l, k with
  | [], [] => true
  | d :: l', e :: k' => (d =? e)%Z && same_dates l' k'
  | _, _ => false
  end.

(** All series have the index of the first one. *)
Definition same_index (series : list (list (Z * float))) : bool :=
  match series with
  | [] => true
  | first :: rest =>
      forallb (fun s => same_dates (map fst s) (map fst first)) rest
  end.

(** No date occurs twice in a list of dates. *)
Fixpoint distinct (dates : list Z) : bool :=
  match dates with
  | [] => true
  | d :: rest => negb (existsb (Z.eqb d) rest) && distinct rest
  end.

(** The index [pd.DataFrame] gives a dictionary of series: an index that
    all series share is kept as it is; otherwise it is the union of the
    indexes, sorted. *)
Definition union_index (series : list (list (Z * float))) : list Z :=
  if same_index series then
    match series with
    | first :: _ => map fst first
    | [] => []
    end
  else merge_sort Z.le (remove_dups (series ≫= map fst)).

(** [pd.DataFrame] reindexes every series whose index is not the
    frame's, and reindexing a series that has a repeated date raises
    [ValueError]: the frame can be built when all series share their
    index, or when no series has a repeated date.  (A repeated date
    inside an index shared by all series is kept by pandas row by row;
    [reindex] below reads the first row of a date, so such histories,
    which the provider does not produce, are outside the model.) *)
Definition alignable (price_data : list (string * list (Z * float))) : bool :=
  same_index (map snd price_data)
  || forallb (fun p => distinct (map fst p.2)) price_data.

(** A data frame: its column labels and its rows, each row an index date
    and one value per column. *)
Record frame : Type := Frame {
  frame_columns : list string;
  frame_rows : list (Z * list float)
}.

(** [pd.DataFrame(price_data)], line 143. *)
Definition DataFrame (price_data : list (string * list (Z * float))) : frame :=
  {| frame_columns := map fst price_data;
     frame_rows :=
       map (fun d => (d, map (fun p => reindex p.2 d) price_data))
           (union_index (map snd price_data)) |}.

(** [v] is not missing. *)
Definition notna (v : float) : bool := negb (is_nan v).

(** [df.dropna()], line 144: rows with a missing value are dropped. *)
Definition dropna (df : frame) : frame :=
  {| frame_columns := frame_columns df;
     frame_rows := List.filter (fun row => forallb notna row.2) (frame_rows df) |}.

(** [df.empty] *)
Definition frame_empty (df : frame) : bool :=
  is_empty (frame_rows df) || is_empty (frame_columns df).

(** Lines 133-147: the aligned frame, or [None] where the code returns
    [None]: on line 140, on line 147, and on line 156 when
    [pd.DataFrame] raises. *)
Definition aligned_prices (stock_data : gmap string stock_data) : option frame :=
  let price_data := price_data stock_data in
  if (size price_data <? 2)%nat then None
  else if negb (alignable (map_to_list price_data)) then None
  else
    let df_prices := dropna (DataFrame (map_to_list price_data)) in
    if frame_empty df_prices then None else Some df_prices.

(** The values of column [j], top to bottom. *)
Definition column (df : frame) (j : nat) : list float :=
  map (fun row => default nan (row.2 !! j)) (frame_rows df).

(** The columns of a frame by label. *)
Definition columns_by_label (df : frame) : gmap string (list float) :=
  list_to_map (zip (frame_columns df)
                   (map (column df) (seq 0 (length (frame_columns df))))).

(** The exact value of a double: [None] for [NaN] and the infinities. *)
Definition float_to_Q (x : float) : option Q :=
  match Prim2SF x with
  | S754_zero _ => Some 0%Q
  | S754_finite s m e =>
      Some (Qred (inject_Z (if s then Z.neg m else Z.pos m) * Qpower 2 e))
  | S754_infinity _ | S754_nan => None
  end.

Definition Qsum (l : list Q) : Q := foldr Qplus 0%Q l.

Definition Qmean (l : list Q) : Q :=
  (Qsum l / inject_Z (Z.of_nat (length l)))%Q.

(** The deviations of the values from their mean. *)
Definition deviations (l : list Q) : list Q := map (fun x => (x - Qmean l)%Q) l.

Definition dot (u v : list Q) : Q := Qsum (zip_with Qmult u v).

(** One cell of the correlation matrix: [NaN], or the coefficient
    [cov / sqrt (vx * vy)] kept as its three exact parts. *)
Inductive cell : Type :=
| NaN
| Coef (cov vx vy : Q).

(** Modelled from the spec: the pairwise Pearson coefficient computed by
    pandas' [DataFrame.corr], which is not part of the repository.  It is
    taken in exact arithmetic on the values of the doubles (rounding
    inside pandas is not modelled): the sum of the products of the
    deviations over the square root of the product of the sums of their
    squares, and [NaN] where that product is zero or a value is not
    finite. *)
Definition pearson (xs ys : list float) : cell :=
  match mapM float_to_Q xs, mapM float_to_Q ys with
  | Some qx, Some qy =>
      let dx := deviations qx in
      let dy := deviations qy in
      if Qeq_bool (dot dx dx * dot dy dy) 0 then NaN
      else Coef (dot dx dy) (dot dx dx) (dot dy dy)
  | _, _ => NaN
  end.


(** [df.corr()], line 150: the matrix of the coefficients of all pairs of
    columns, by label. *)
Definition corr (df : frame) : gmap string (gmap string cell) :=
  let columns := columns_by_label df in
  (fun xs => (fun ys => pearson xs ys) <$> columns) <$> columns.

(** [calculate_correlations].  Where [pd.DataFrame] raises,
    [except Exception] returns [None] as well. *)
Definition calculate_correlations (stock_data : gmap string stock_data)
  : option (gmap string (gmap string cell)) :=
  corr <$> aligned_prices stock_data.



(** Date [d] is present, with a value, in every usable series. *)
Definition overlaps (stock_data : gmap string stock_data) (d : Z) : bool :=
  forallb (fun p => match series_at p.2 d with
                    | Some v => notna v
                    | None => false
                    end)
          (map_to_list (price_data stock_data)).

(** ** The specification's wording, for comparison

    These definitions follow the specification's sentences, not the code;
    they are what the code is compared with. *)

(** Section 4.1: membership in the fixed set of names, or a length above
    6, selects the [.NS] form first; a dotted input stands alone;
    otherwise the bare symbol comes first. *)
Definition spec_candidates (raw : string) : list string :=
  let s := clean raw in
  if PyStr.contains "." s then [s]
  else if existsb (String.eqb s) indian_patterns || (6 <? PyStr.len s)%nat then
    [(s ++ ".NS")%string; (s ++ ".BO")%string]
  else
    [s; (s ++ ".NS")%string; (s ++ ".BO")%string].

(** "Symbol resolution produces candidates in this fixed order": with a
    provider that has no data at all, every candidate is consulted. *)
Definition resolution_order_as_specified : Prop :=
  forall (float_of_str : string -> option float) (yf : yfinance) (raw : string),
    (forall c, quiet_empty yf c) ->
    tried float_of_str yf raw = spec_candidates raw.

(** The provider [yf] with the answer for [c] replaced by an empty
    snapshot and an empty history. *)
Definition answer_empty_at (yf : yfinance) (c : string) : yfinance :=
  {| ticker_info := fun s => if String.eqb s c then Some ∅ else ticker_info yf s;
     ticker_history := fun s => if String.eqb s c then Some [] else ticker_history yf s |}.

(** Section 7 (c): a failure at one candidate is "treated identically" to
    that candidate having no data. *)
Definition failure_like_empty_history : Prop :=
  forall (float_of_str : string -> option float) (yf : yfinance) (sym c : string),
    In c (candidates sym) -> raises_at yf c ->
    get_stock_info float_of_str yf sym
    = get_stock_info float_of_str (answer_empty_at yf c) sym.


(** ** Sample providers *)

(** [float(s)] failing on every string. *)
Definition no_float_of_str : string -> option float := fun _ => None.

(** A provider that knows no symbol. *)
Definition yf_silent : yfinance :=
  {| ticker_info := fun _ => Some ∅; ticker_history := fun _ => Some [] |}.

(** [n] daily bars from day [d0], closing at [c0], [c0 + 1], ... *)
Fixpoint ramp (n : nat) (d0 : Z) (c0 : float) : list bar :=
  match n with
  | O => []
  | S n' => Bar d0 c0 1000 :: ramp n' (d0 + 1)%Z (c0 + 1)%float
  end.

(** A provider that has data for exactly one symbol: a snapshot without a
    live price and with a dividend yield of 0.025, and 40 bars. *)
Definition yf_only (known : string) : yfinance :=
  {| ticker_info := fun s =>
       if String.eqb s known
       then Some {[ "dividendYield" := PNum 0x1.999999999999ap-6%float;
                    "longName" := PStr "Known Ltd" ]}
       else Some ∅;
     ticker_history := fun s =>
       if String.eqb s known then Some (ramp 40 1%Z 100%float) else Some [] |}.

(** A provider whose first answer for ["AAPL"] fails while ["AAPL.NS"]
    has data. *)
Definition yf_flaky : yfinance :=
  {| ticker_info := fun s =>
       if String.eqb s "AAPL" then None else ticker_info (yf_only "AAPL.NS") s;
     ticker_history := ticker_history (yf_only "AAPL.NS") |}.

(** A provider with a live price of 250 for its one symbol. *)
Definition yf_live (known : string) : yfinance :=
  {| ticker_info := fun s =>
       if String.eqb s known then Some {[ "currentPrice" := PNum 250%float ]}
       else Some ∅;
     ticker_history := ticker_history (yf_only known) |}.

(** A series in chronological order: strictly ascending dates. *)
Definition chronological (series : list (Z * float)) : Prop :=
  StronglySorted (fun a b => (a.1 < b.1)%Z) series.

(** A snapshot field that is absent, [None], or a zero. *)
Definition missing_or_zero (o : option pyval) : Prop :=
  o = None \/ o = Some PNone \/ exists x, o = Some (PNum x) /\ (x =? 0)%float = true.






(** ** The dashboard's input line ([src/app.py], line 41) *)

(** [s.split(sep)] for a one-character separator. *)
Fixpoint split_on (sep : ascii) (s : string) : list string :=
  match s with
  | EmptyString => [EmptyString]
  | String c s' =>
      if Ascii.eqb c sep then EmptyString :: split_on sep s'
      else match split_on sep s' with
           | piece :: pieces => String c piece :: pieces
           | [] => [String c EmptyString]
           end
  end.

(** [[stock.strip().upper() for stock in stock_input.split(',')
      if stock.strip()]] *)
Definition parse_symbols (stock_input : string) : list string :=
  map (fun stock => PyStr.upper (PyStr.strip stock))
      (List.filter (fun stock => negb (String.eqb (PyStr.strip stock) ""))
                   (split_on "," stock_input)).

(** A string that is empty or starts with a character other than white
    space. *)
Definition no_leading_space (s : string) : Prop :=
  match s with
  | EmptyString => True
  | String c _ => PyStr.isspace c = false
  end.


(** ** The news aggregator ([src/news_scraper.py]) *)

(** [l[:n]] for an integer [n]: a negative [n] counts from the end. *)
Definition py_take {A : Type} (n : Z) (l : list A) : list A :=
  if (0 <=? n)%Z then take (Z.to_nat n) l
  else take (length l - Z.to_nat (- n)) l.

(** [list(dict.fromkeys(l))]: the elements of [l] in the order of their
    first occurrence. *)
Definition fromkeys (l : list string) : list string :=
  foldl (fun keys x => if decide (x ∈ keys) then keys else keys ++ [x]) [] l.

(** The loop of lines 25-34 on the outcomes of the sources still to be
    called ([None] is a source that raises) and the headlines gathered so
    far. *)
Fixpoint gather (max_headlines : Z) (sources : list (option (list string)))
    (headlines : list string) : list string :=
  match sources with
  | [] => headlines
  | None :: rest => gather max_headlines rest headlines
  | Some source_headlines :: rest =>
      let headlines := headlines ++ source_headlines in
      if (max_headlines <=? Z.of_nat (length headlines))%Z then headlines
      else gather max_headlines rest headlines
  end.

(** [get_stock_news], lines 13-42, on the outcomes of its three sources
    for the given company and symbol, in the order in which it calls
    them. *)
Definition get_stock_news (sources : list (option (list string)))
    (max_headlines : Z) : list string :=
  let headlines := gather max_headlines sources [] in
  let unique_headlines := fromkeys headlines in
  py_take max_headlines unique_headlines.

(** The headlines of the sources that do not raise, in order. *)
Definition all_headlines (sources : list (option (list string))) : list string :=
  sources ≫= (fun o => default [] o).

(** [get_news_summary], lines 157-173: one iteration and the loop. *)
Definition news_summary_step (summary : gmap string (nat * list string))
    (item : string * list string) : gmap string (nat * list string) :=
  let '(stock, headlines) := item in
  if negb (is_empty headlines) then
    <[stock := (length headlines, py_take 3 headlines)]> summary
  else <[stock := (0%nat, [])]> summary.

Definition get_news_summary (news_data : gmap string (list string))
  : gmap string (nat * list string) :=
  foldl news_summary_step ∅ (map_to_list news_data).

(** ** The summary of the analyzer, [get_performance_summary]
       ([src/stock_analyzer.py], lines 174-186) *)

Record performance : Type := Performance {
  perf_company : pyval;
  perf_price : float;
  perf_change : float;
  perf_pe_ratio : pyval
}.

(** One iteration of the loop of lines 178-184; a record has all four
    keys, so the defaults of [data.get] are not used. *)
Definition performance_step (summary : gmap string performance)
    (item : string * stock_data) : gmap string performance :=
  let '(sym, data) := item in
  <[sym := {| perf_company := company_name data;
              perf_price := current_price data;
              perf_change := six_month_change data;
              perf_pe_ratio := pe_ratio data |}]> summary.

Definition get_performance_summary (stock_data : gmap string stock_data)
  : gmap string performance :=
  foldl performance_step ∅ (map_to_list stock_data).

(** ** Display of a metric, [format_metric]
       ([src/stock_analyzer.py], lines 158-172) *)

Section Formatting.

(** Python's [f"{x:.{n}f}"] on a double: the text, or [None] where it
    raises [ValueError] (a negative precision).  The formatting is
    Python's own and is left abstract. *)
Variable format_fixed : Z -> float -> option string.

(** [value == 'N/A'] *)
Definition is_na (value : pyval) : bool :=
  match value with PStr s => String.eqb s "N/A" | _ => false end.

Definition format_metric (value : pyval) (is_percentage : bool)
    (decimal_places : Z) : string :=
  if is_none value || is_na value then "N/A"
  else
    match value with
    | PNum x =>
        match format_fixed decimal_places x with
        | Some text => if is_percentage then (text ++ "%")%string else text
        | None => "N/A"
        end
    | PStr s => s
    | PNone => "N/A"
    end.

End Formatting.

(** ** The dashboard's analysis run, [analyze_stocks] of [src/app.py]
       (lines 55-112) *)

(** What the run stores in the session state, lines 93-96. *)
Record session : Type := Session {
  session_stock_data : gmap string stock_data;
  session_news_data : gmap string (list string);
  session_correlation_data : option (gmap string (gmap string cell));
  session_selected_stocks : list string
}.

Module App.

Section Run.

Variable float_of_str : string -> option float.

(** The outcomes of the three news sources for a company name and a
    symbol, in the order in which [get_stock_news] calls them. *)
Variable news_sources : pyval -> string -> list (option (list string)).

(** One iteration of the loop of lines 78-86.  [get_stock_news] catches
    its own exceptions, so the handler of line 83 is never entered. *)
Definition news_step (stock_data : gmap string stock_data)
    (news_data : gmap string (list string)) (stock : string)
  : gmap string (list string) :=
  let company_name :=
    match stock_data !! stock with
    | Some data => company_name data
    | None => PStr stock
    end in
  let headlines := get_stock_news (news_sources company_name stock) 10 in
  <[stock := headlines]> news_data.

(** The run: [None] is the early [return] of line 73, taken when no
    stock could be fetched; the progress display is left out. *)
Definition analyze_stocks (yf : yfinance) (stocks : list string)
  : option session :=
  let stock_data := analyze_stocks float_of_str yf stocks in
  if (size stock_data =? 0)%nat then None
  else
    let news_data := foldl (news_step stock_data) ∅ stocks in
    let correlation_data := calculate_correlations stock_data in
    Some {| session_stock_data := stock_data;
            session_news_data := news_data;
            session_correlation_data := correlation_data;
            session_selected_stocks := stocks |}.

End Run.

End App.

(** ** The report's conclusion ([src/report_generator.py], lines 287-304) *)

(** [isinstance(v, (int, float))] *)
Definition is_number (v : pyval) : bool :=
  match v with PNum _ => true | _ => false end.

(** [isinstance(v, (int, float)) and v < c] and
    [isinstance(v, (int, float)) and v > c] *)
Definition number_below (v : pyval) (c : float) : bool :=
  match v with PNum x => (x <? c)%float | _ => false end.
Definition number_above (v : pyval) (c : float) : bool :=
  match v with PNum x => (c <? x)%float | _ => false end.

(** Lines 290-301 for [data = stock_data.get(stock, {})]: the score of
    one stock. *)
Definition conclusion_score (data : option stock_data) : nat :=
  let pe_ratio := match data with Some d => pe_ratio d | None => PNum infinity end in
  let roe := match data with Some d => roe d | None => PNum 0%float end in
  let change := match data with Some d => six_month_change d | None => 0%float end in
  ((if number_below pe_ratio 25 then 1 else 0)
   + (if number_above roe 10 then 1 else 0)
   + (if (0 <? change)%float then 1 else 0))%nat.

(** Lines 288-304: the list [strong_stocks]. *)
Definition strong_stocks (stocks : list string)
    (stock_data : gmap string stock_data) : list string :=
  List.filter (fun stock => (2 <=? conclusion_score (stock_data !! stock))%nat) stocks.

(** ** The three news sources, after the page has been fetched and
       parsed ([src/news_scraper.py], lines 60-65, 88-101, 126-134) *)

(** [c.lower()] on one ASCII character and [s.lower()]. *)
Definition lower_ascii (c : ascii) : ascii :=
  let n := nat_of_ascii c in
  if (65 <=? n)%nat && (n <=? 90)%nat then ascii_of_nat (n + 32) else c.

Fixpoint py_lower (s : string) : string :=
  match s with
  | EmptyString => EmptyString
  | String c s' => String (lower_ascii c) (py_lower s')
  end.

(** [headline = text.strip()] followed by
    [if headline and len(headline) > threshold]: the headline to append,
    if any. *)
Definition keep_headline (threshold : nat) (text : string) : option string :=
  let headline := PyStr.strip text in
  if negb (String.eqb headline "") && (threshold <? PyStr.len headline)%nat
  then Some headline else None.

(** Google News, lines 60-65, on the [<item>] elements of the feed, each
    with the text of its [<title>] if it has one. *)
Definition google_headlines (items : list (option string)) : list string :=
  omap (fun title => text ← title; keep_headline 10 text) (take 5 items).

Definition yahoo_keywords : list string :=
  ["stock"; "shares"; "earnings"; "revenue"; "profit"; "loss"].

(** The fallback loop of Yahoo Finance, lines 96-101. *)
Fixpoint yahoo_fallback (elements : list string) (headlines : list string)
  : list string :=
  match elements with
  | [] => headlines
  | element :: rest =>
      let text := PyStr.strip element in
      if negb (String.eqb text "") && (20 <? PyStr.len text)%nat
         && existsb (fun keyword => PyStr.contains keyword (py_lower text))
                    yahoo_keywords
      then
        let headlines := headlines ++ [text] in
        if (5 <=? length headlines)%nat then headlines
        else yahoo_fallback rest headlines
      else yahoo_fallback rest headlines
  end.

(** Yahoo Finance, lines 88-101, on the texts of the headline elements
    and of all [h3]/[h4] elements of the page. *)
Definition yahoo_headlines (news_elements all_elements : list string)
  : list string :=
  let headlines := omap (keep_headline 10) (take 5 news_elements) in
  if is_empty headlines then yahoo_fallback (take 10 all_elements) []
  else headlines.

(** The inner loop of Bing News, lines 128-132: the first title of a
    card that is long enough. *)
Fixpoint first_title (title_elements : list string) : option string :=
  match title_elements with
  | [] => None
  | element :: rest =>
      match keep_headline 15 element with
      | Some headline => Some headline
      | None => first_title rest
      end
  end.

(** The outer loop of Bing News, lines 126-134. *)
Fixpoint bing_loop (cards : list (list string)) (headlines : list string)
  : list string :=
  match cards with
  | [] => headlines
  | card :: rest =>
      let headlines :=
        match first_title card with
        | Some headline => headlines ++ [headline]
        | None => headlines
        end in
      if (5 <=? length headlines)%nat then headlines
      else bing_loop rest headlines
  end.

(** Bing News on the news cards of the page, each with the texts of its
    title elements. *)
Definition bing_headlines (news_cards : list (list string)) : list string :=
  bing_loop (take 5 news_cards) [].

(** A headline as the sources append it: trimmed and longer than
    [threshold] characters. *)
Definition proper_headline (threshold : nat) (headline : string) : Prop :=
  PyStr.strip headline = headline /\ (threshold < PyStr.len headline)%nat.

(** ** The report's news sentiment ([src/report_generator.py],
       lines 204-216) *)

Definition positive_keywords : list string :=
  ["growth"; "profit"; "revenue"; "beat"; "strong"; "positive"; "gain";
   "rise"; "up"].

Definition negative_keywords : list string :=
  ["loss"; "down"; "fall"; "weak"; "decline"; "drop"; "negative"; "concern"].

Section Sentiment.

(** [str.lower], Python's lower-casing of a string.  It is a parameter:
    what is proved of the sentiment holds for every such function, the
    Unicode one of Python included.  The keywords are ASCII, so on
    UTF-8 text the test [keyword in s] is the test on the bytes. *)
Variable lower : string -> string.

(** [sum(1 for headline in headlines for keyword in keywords
         if keyword in headline.lower())] *)
Definition keyword_count (keywords headlines : list string) : nat :=
  length (headlines ≫= (fun headline =>
            List.filter (fun keyword => PyStr.contains keyword (lower headline))
                        keywords)).

(** Lines 208-216, for a non-empty list of headlines. *)
Definition news_sentiment (headlines : list string) : string :=
  let positive_count := keyword_count positive_keywords headlines in
  let negative_count := keyword_count negative_keywords headlines in
  if (negative_count <? positive_count)%nat then "predominantly positive"
  else if (positive_count <? negative_count)%nat then "predominantly negative"
  else "mixed".

End Sentiment.

(** ** Chronological histories *)



(** * Properties *)

(** ** The normaliser on the specification's examples *)

Example normalize_aapl : _normalize_symbol "AAPL" = "AAPL".
Proof. reflexivity. Qed.
Example normalize_reliance : _normalize_symbol " reliance " = "RELIANCE.NS".
Proof. reflexivity. Qed.
Example normalize_tcs_ns : _normalize_symbol "TCS.NS" = "TCS.NS".
Proof. reflexivity. Qed.
Example normalize_alt : _normalize_symbol "ALT" = "ALT.NS".
Proof. reflexivity. Qed.

(** ** Strings *)

Lemma startswith_app (p t : string) : PyStr.startswith p (p ++ t)%string = true.
Proof.
  induction p as [|a p IH]; simpl; [reflexivity|].
  rewrite Ascii.eqb_refl. exact IH.
Qed.

Lemma contains_app (p s t : string) : PyStr.contains p (s ++ p ++ t)%string = true.
Proof.
  induction s as [|a s IH]; simpl.
  - destruct (p ++ t)%string eqn:E; simpl; rewrite <- E, startswith_app; reflexivity.
  - rewrite IH. apply orb_true_r.
Qed.

Lemma contains_dot_suffix (s : string) (a b : ascii) :
  PyStr.contains "." (s ++ String "." (String a (String b EmptyString)))%string = true.
Proof. apply (contains_app "." s (String a (String b EmptyString))). Qed.

Lemma endswith_app (p s : string) : PyStr.endswith p (s ++ p)%string = true.
Proof.
  induction s as [|a s IH]; simpl.
  - destruct p; simpl; [reflexivity|].
    rewrite Ascii.eqb_refl, String.eqb_refl. reflexivity.
  - rewrite IH. apply orb_true_r.
Qed.

Lemma endswith_contains (p q s : string) :
  PyStr.contains q p = true -> PyStr.endswith p s = true -> PyStr.contains q s = true.
Proof.
  intros Hq. induction s as [|a s IH]; simpl; intros H.
  - apply orb_true_iff in H as [H|H]; [|discriminate].
    apply String.eqb_eq in H. subst p. exact Hq.
  - apply orb_true_iff in H as [H|H].
    + apply String.eqb_eq in H. subst p. exact Hq.
    + rewrite (IH H). apply orb_true_r.
Qed.

Lemma endswith_NS_dotted (s : string) :
  PyStr.endswith ".NS" s = true -> PyStr.contains "." s = true.
Proof. apply endswith_contains. reflexivity. Qed.

(** ** The fetcher walks its candidates *)

Section FetcherFacts.

Variable float_of_str : string -> option float.

(** One fetch: the symbol is logged, then the provider answers or raises. *)
Lemma fetch_run (yf : yfinance) (c : string) (log : list string) :
  fetch yf c log =
    (match ticker_info yf c, ticker_history yf c with
     | Some info, Some hist => Some (info, hist)
     | _, _ => None
     end, log ++ [c]).
Proof.
  unfold fetch, Ticker, lift, mbind, M_bind, mret, M_ret.
  destruct (ticker_info yf c), (ticker_history yf c); reflexivity.
Qed.

Lemma bind_run {A B : Type} (m : M A) (k : A -> M B) (log : list string) :
  (m ≫= k) log =
    match m log with
    | (Some a, log') => k a log'
    | (None, log') => (None, log')
    end.
Proof. reflexivity. Qed.

Lemma ret_run {A : Type} (a : A) (log : list string) : (mret a : M A) log = (Some a, log).
Proof. reflexivity. Qed.

Ltac run_fetch yf c i h :=
  rewrite ?bind_run, ?fetch_run;
  destruct (ticker_info yf c) as [i|]; [|reflexivity];
  destruct (ticker_history yf c) as [h|]; [|reflexivity];
  cbv beta iota.

(** The body of [get_stock_info] is the walk over [candidates]. *)
Lemma body_scan (yf : yfinance) (sym : string) (log : list string) :
  get_stock_info_body float_of_str yf sym log
  = scan float_of_str yf sym (candidates sym) log.
Proof.
  unfold get_stock_info_body, candidates.
  destruct (PyStr.endswith ".NS" (_normalize_symbol sym)) eqn:Hns.
  - pose proof (endswith_NS_dotted _ Hns) as Hdot.
    cbn [scan]. run_fetch yf (_normalize_symbol sym) i h.
    destruct h as [|b h]; cbn [is_empty andb negb].
    + run_fetch yf (sym ++ ".BO")%string i' h'.
      rewrite ret_run, bind_run. cbv beta iota.
      rewrite contains_dot_suffix. cbn [negb andb].
      rewrite andb_false_r, ret_run. cbv beta iota. reflexivity.
    + rewrite bind_run, ret_run. cbv beta iota. rewrite bind_run.
      cbn [is_empty andb]. rewrite ret_run. reflexivity.
  - destruct (PyStr.contains "." (_normalize_symbol sym)) eqn:Hdot.
    + cbn [scan]. run_fetch yf (_normalize_symbol sym) i h.
      rewrite andb_false_r, bind_run, ret_run. cbv beta iota.
      rewrite Hdot. cbn [negb]. rewrite andb_false_r, bind_run, ret_run.
      cbv beta iota. destruct h; reflexivity.
    + cbn [scan]. run_fetch yf (_normalize_symbol sym) i h.
      rewrite andb_false_r, bind_run, ret_run. cbv beta iota.
      rewrite Hdot. cbn [negb]. rewrite andb_true_r.
      destruct h as [|b h]; cbn [is_empty].
      * cbn [try_suffixes]. rewrite bind_run.
        run_fetch yf (sym ++ ".NS")%string i1 h1.
        destruct h1 as [|b1 h1]; cbn [is_empty negb].
        -- run_fetch yf (sym ++ ".BO")%string i2 h2.
           destruct h2; reflexivity.
        -- reflexivity.
      * rewrite bind_run, ret_run. reflexivity.
Qed.

Lemma scan_accept (yf : yfinance) (sym : string) (pre post : list string)
    (c : string) (info : gmap string pyval) (hist : list bar) (log : list string) :
  Forall (quiet_empty yf) pre ->
  ticker_info yf c = Some info -> ticker_history yf c = Some hist -> hist <> [] ->
  scan float_of_str yf sym (pre ++ c :: post) log
  = (Some <$> build_stock_data float_of_str sym c info hist, log ++ pre ++ [c]).
Proof.
  intros Hpre Hi Hh Hne. revert log.
  induction Hpre as [|c' pre [[i' Hi'] Hh'] _ IH]; intros log; cbn [app scan].
  - rewrite bind_run, fetch_run, Hi, Hh. cbv beta iota.
    destruct hist as [|b hist]; [congruence|]. cbn [is_empty].
    rewrite bind_run. unfold lift.
    destruct (build_stock_data float_of_str sym c info (b :: hist)); reflexivity.
  - rewrite bind_run, fetch_run, Hi', Hh'. cbv beta iota. cbn [is_empty].
    rewrite IH, <- app_assoc. reflexivity.
Qed.

Lemma scan_raise (yf : yfinance) (sym : string) (pre post : list string)
    (c : string) (log : list string) :
  Forall (quiet_empty yf) pre -> raises_at yf c ->
  scan float_of_str yf sym (pre ++ c :: post) log = (None, log ++ pre ++ [c]).
Proof.
  intros Hpre Hc. revert log.
  induction Hpre as [|c' pre [[i' Hi'] Hh'] _ IH]; intros log; cbn [app scan].
  - rewrite bind_run, fetch_run.
    destruct Hc as [Hc|Hc]; rewrite Hc; [|destruct (ticker_info yf c)]; reflexivity.
  - rewrite bind_run, fetch_run, Hi', Hh'. cbv beta iota. cbn [is_empty].
    rewrite IH, <- app_assoc. reflexivity.
Qed.

Lemma scan_all_empty (yf : yfinance) (sym : string) (cands : list string)
    (log : list string) :
  Forall (quiet_empty yf) cands ->
  scan float_of_str yf sym cands log = (Some None, log ++ cands).
Proof.
  intros Hall. revert log.
  induction Hall as [|c' pre [[i' Hi'] Hh'] _ IH]; intros log; cbn [scan].
  - rewrite app_nil_r. reflexivity.
  - rewrite bind_run, fetch_run, Hi', Hh'. cbv beta iota. cbn [is_empty].
    rewrite IH, <- app_assoc. reflexivity.
Qed.

(** The symbols consulted are a non-empty initial segment of the list. *)
Lemma scan_log (yf : yfinance) (sym : string) (cands : list string)
    (log : list string) :
  exists n, (scan float_of_str yf sym cands log).2 = log ++ take (S n) cands.
Proof.
  revert log. induction cands as [|c rest IH]; intros log.
  - exists 0%nat. cbn. rewrite app_nil_r. reflexivity.
  - cbn [scan]. rewrite bind_run, fetch_run.
    destruct (ticker_info yf c) as [i|]; [|exists 0%nat; reflexivity].
    destruct (ticker_history yf c) as [h|]; [|exists 0%nat; reflexivity].
    cbv beta iota. destruct h as [|b h]; cbn [is_empty].
    + destruct (IH (log ++ [c])) as [n Hn]. exists (S n).
      rewrite Hn, <- app_assoc. reflexivity.
    + exists 0%nat. rewrite bind_run. unfold lift.
      destruct (build_stock_data float_of_str sym c i (b :: h)); reflexivity.
Qed.

Lemma tried_candidates (yf : yfinance) (sym : string) :
  exists n, tried float_of_str yf sym = take (S n) (candidates sym).
Proof.
  unfold tried. rewrite body_scan.
  destruct (scan_log yf sym (candidates sym) []) as [n Hn]. exists n. exact Hn.
Qed.

Lemma candidates_head (sym : string) :
  head (candidates sym) = Some (_normalize_symbol sym).
Proof.
  unfold candidates.
  destruct (PyStr.endswith ".NS" _); [reflexivity|].
  destruct (PyStr.contains "." _); reflexivity.
Qed.

(** The first symbol consulted is always the normalised one. *)
Lemma tried_head (yf : yfinance) (sym : string) :
  head (tried float_of_str yf sym) = Some (_normalize_symbol sym).
Proof.
  destruct (tried_candidates yf sym) as [n ->].
  rewrite <- candidates_head. destruct (candidates sym); reflexivity.
Qed.

(** *** The record builder *)

Lemma build_fields (sym c : string) (info : gmap string pyval)
    (hist : list bar) (r : stock_data) :
  build_stock_data float_of_str sym c info hist = Some r ->
  symbol r = sym /\ normalized_symbol r = c
  /\ price_history r = close_series hist
  /\ calc_six_month_change hist = Some (six_month_change r)
  /\ percent_field info "dividendYield" = Some (dividend_yield r)
  /\ percent_field info "returnOnEquity" = Some (roe r)
  /\ exists price, pick_current_price info hist = Some price
       /\ (if truthy price then py_float float_of_str price else Some 0%float)
          = Some (current_price r).
Proof.
  unfold build_stock_data. intros H.
  destruct (calc_six_month_change hist) as [ch|]; [|discriminate].
  destruct (pick_current_price info hist) as [p|]; [|discriminate].
  cbn [mbind option_bind] in H.
  destruct (if truthy p then py_float float_of_str p else Some 0%float) as [pf|]
    eqn:Hpf; [|discriminate].
  cbn [mbind option_bind] in H.
  destruct (percent_field info "dividendYield") as [dy|]; [|discriminate].
  destruct (percent_field info "returnOnEquity") as [ro|]; [|discriminate].
  cbn [mbind option_bind] in H.
  destruct (if negb (is_empty hist) then _ else _) as [vd|]; [|discriminate].
  cbn [mbind option_bind] in H. injection H as <-. cbn.
  repeat split. exists p. split; [reflexivity|exact Hpf].
Qed.

Lemma close_series_nil (hist : list bar) : close_series hist = [] -> hist = [].
Proof. destruct hist; [reflexivity|discriminate]. Qed.

(** *** Consequences for [get_stock_info] *)

Lemma get_stock_info_accept (yf : yfinance) (sym : string)
    (pre post : list string) (c : string)
    (info : gmap string pyval) (hist : list bar) :
  candidates sym = pre ++ c :: post ->
  Forall (quiet_empty yf) pre ->
  ticker_info yf c = Some info -> ticker_history yf c = Some hist -> hist <> [] ->
  get_stock_info float_of_str yf sym = build_stock_data float_of_str sym c info hist
  /\ tried float_of_str yf sym = pre ++ [c].
Proof.
  intros Hc Hpre Hi Hh Hne. unfold get_stock_info, tried.
  rewrite body_scan, Hc, (scan_accept yf sym pre post c info hist [] Hpre Hi Hh Hne).
  cbn [fst snd app]. split; [|reflexivity].
  destruct (build_stock_data float_of_str sym c info hist); reflexivity.
Qed.

Lemma get_stock_info_raise (yf : yfinance) (sym : string)
    (pre post : list string) (c : string) :
  candidates sym = pre ++ c :: post ->
  Forall (quiet_empty yf) pre -> raises_at yf c ->
  get_stock_info float_of_str yf sym = None
  /\ tried float_of_str yf sym = pre ++ [c].
Proof.
  intros Hc Hpre Hr. unfold get_stock_info, tried.
  rewrite body_scan, Hc, (scan_raise yf sym pre post c [] Hpre Hr).
  split; reflexivity.
Qed.

Lemma get_stock_info_all_empty (yf : yfinance) (sym : string) :
  Forall (quiet_empty yf) (candidates sym) ->
  get_stock_info float_of_str yf sym = None
  /\ tried float_of_str yf sym = candidates sym.
Proof.
  intros Hall. unfold get_stock_info, tried.
  rewrite body_scan, (scan_all_empty yf sym (candidates sym) [] Hall).
  split; reflexivity.
Qed.

Lemma scan_inv (yf : yfinance) (sym : string) (cands : list string)
    (log : list string) (r : stock_data) :
  (scan float_of_str yf sym cands log).1 = Some (Some r) ->
  exists pre c post info hist,
    cands = pre ++ c :: post /\ Forall (quiet_empty yf) pre
    /\ ticker_info yf c = Some info /\ ticker_history yf c = Some hist
    /\ hist <> [] /\ build_stock_data float_of_str sym c info hist = Some r.
Proof.
  revert log. induction cands as [|c rest IH]; intros log; cbn [scan].
  - rewrite ret_run. discriminate.
  - rewrite bind_run, fetch_run.
    destruct (ticker_info yf c) as [i|] eqn:Hi; [|discriminate].
    destruct (ticker_history yf c) as [h|] eqn:Hh; [|discriminate].
    cbv beta iota. destruct h as [|b h]; cbn [is_empty].
    + intros H. destruct (IH _ H) as (pre & c' & post & i' & h' & -> & Hq & Hrest).
      exists (c :: pre), c', post, i', h'. split; [reflexivity|].
      split; [|exact Hrest]. constructor; [|exact Hq].
      split; [exists i; exact Hi | exact Hh].
    + rewrite bind_run. unfold lift.
      destruct (build_stock_data float_of_str sym c i (b :: h)) as [r'|] eqn:Hb;
        cbn; [|discriminate].
      intros [= ->]. exists [], c, rest, i, (b :: h).
      repeat split; try assumption; try constructor. discriminate.
Qed.

(** Every record returned was built from one candidate's own answer. *)
Lemma get_stock_info_inv (yf : yfinance) (sym : string) (r : stock_data) :
  get_stock_info float_of_str yf sym = Some r ->
  exists pre c post info hist,
    candidates sym = pre ++ c :: post /\ Forall (quiet_empty yf) pre
    /\ ticker_info yf c = Some info /\ ticker_history yf c = Some hist
    /\ hist <> [] /\ build_stock_data float_of_str sym c info hist = Some r.
Proof.
  unfold get_stock_info. rewrite body_scan. intros H.
  apply (scan_inv yf sym (candidates sym) []).
  destruct (scan float_of_str yf sym (candidates sym) []).1 as [[r'|]|];
    congruence.
Qed.

End FetcherFacts.

(** ** Pattern matching in the normaliser *)

Lemma looks_indian_pattern (pattern s : string) :
  In pattern indian_patterns -> PyStr.contains pattern s = true ->
  looks_indian s = true.
Proof.
  intros Hin Hc. unfold looks_indian. apply orb_true_iff. left.
  apply existsb_exists. exists pattern. split; assumption.
Qed.

(** C10. An input without a dot whose upper-cased, trimmed form contains an
    entry of the hard-coded list as a substring is classified as Indian:
    [_normalize_symbol] returns the form with [.NS], and that is the first
    symbol the fetcher consults.  Neither equality with a list entry nor a
    length above 6 is required. *)
Theorem normalize_substring_is_indian (raw pattern : string) :
  PyStr.contains "." (clean raw) = false ->
  In pattern indian_patterns ->
  PyStr.contains pattern (clean raw) = true ->
  looks_indian (clean raw) = true
  /\ _normalize_symbol raw = (clean raw ++ ".NS")%string
  /\ forall float_of_str yf,
       head (tried float_of_str yf raw) = Some (clean raw ++ ".NS")%string.
Proof.
  intros Hdot Hin Hc.
  pose proof (looks_indian_pattern _ _ Hin Hc) as Hli.
  assert (Hn : _normalize_symbol raw = (clean raw ++ ".NS")%string).
  { unfold _normalize_symbol. cbv zeta. rewrite Hdot, Hli. reflexivity. }
  split; [exact Hli|]. split; [exact Hn|].
  intros fos yf. rewrite tried_head, Hn. reflexivity.
Qed.

Lemma normalize_substring_is_indian_witness :
  (PyStr.len (clean "alt") <= 6)%nat
  /\ ~ In (clean "alt") indian_patterns
  /\ _normalize_symbol "alt" = "ALT.NS".
Proof.
  split; [vm_compute; lia|]. split.
  - intros H. vm_compute in H. intuition discriminate.
  - apply (normalize_substring_is_indian "alt" "LT");
      [reflexivity | vm_compute; tauto | reflexivity].
Defined.

Example short_symbols_with_patterns :
  map _normalize_symbol ["ALT"; "PITCH"; "ACCO"; "LTD"]
  = ["ALT.NS"; "PITCH.NS"; "ACCO.NS"; "LTD.NS"].
Proof. reflexivity. Qed.

(** ** Resolution order *)

Lemma yf_silent_quiet (c : string) : quiet_empty yf_silent c.
Proof. split; [exists ∅|]; reflexivity. Qed.

Lemma candidates_clean (raw : string) :
  clean raw = raw -> PyStr.endswith ".NS" raw = false ->
  candidates raw =
    if PyStr.contains "." raw then [raw]
    else if looks_indian raw then [(raw ++ ".NS")%string; (raw ++ ".BO")%string]
    else [raw; (raw ++ ".NS")%string; (raw ++ ".BO")%string].
Proof.
  intros Hclean Hns. unfold candidates, _normalize_symbol. cbv zeta.
  rewrite Hclean.
  destruct (PyStr.contains "." raw) eqn:Hdot.
  - rewrite Hns, Hdot. reflexivity.
  - destruct (looks_indian raw).
    + rewrite endswith_app. reflexivity.
    + rewrite Hns, Hdot. reflexivity.
Qed.

(** C4, as the code has it.  For a raw input that is already upper-case
    and trimmed and does not end in [.NS]: a dotted input is the sole
    candidate; an input that contains an entry of the hard-coded list as a
    substring, or is longer than 6 characters, has its [.NS] form first
    and its [.BO] form second; any other input comes first itself, then
    with [.NS], then with [.BO].  The fetcher consults a non-empty initial
    segment of that list, and the whole list when no candidate has
    data. *)
Theorem resolution_order (float_of_str : string -> option float)
    (yf : yfinance) (raw : string) :
  clean raw = raw -> PyStr.endswith ".NS" raw = false ->
  candidates raw =
    (if PyStr.contains "." raw then [raw]
     else if looks_indian raw then [(raw ++ ".NS")%string; (raw ++ ".BO")%string]
     else [raw; (raw ++ ".NS")%string; (raw ++ ".BO")%string])
  /\ (exists n, tried float_of_str yf raw = take (S n) (candidates raw))
  /\ (Forall (quiet_empty yf) (candidates raw) ->
      tried float_of_str yf raw = candidates raw).
Proof.
  intros Hclean Hns. split; [exact (candidates_clean raw Hclean Hns)|].
  split; [apply tried_candidates|].
  intros Hall. apply (get_stock_info_all_empty float_of_str yf raw Hall).
Qed.

Lemma resolution_order_witness :
  candidates "RELIANCE" = ["RELIANCE.NS"; "RELIANCE.BO"]
  /\ candidates "AAPL" = ["AAPL"; "AAPL.NS"; "AAPL.BO"]
  /\ candidates "BRK.B" = ["BRK.B"]
  /\ tried no_float_of_str yf_silent "AAPL" = ["AAPL"; "AAPL.NS"; "AAPL.BO"].
Proof.
  destruct (resolution_order no_float_of_str yf_silent "RELIANCE"
              eq_refl eq_refl) as (Hr & _ & _).
  destruct (resolution_order no_float_of_str yf_silent "AAPL"
              eq_refl eq_refl) as (Ha & _ & Hall).
  destruct (resolution_order no_float_of_str yf_silent "BRK.B"
              eq_refl eq_refl) as (Hb & _ & _).
  split; [exact Hr|]. split; [exact Ha|]. split; [exact Hb|].
  rewrite Hall; [exact Ha|].
  apply Forall_forall. intros c _. apply yf_silent_quiet.
Defined.

(** C4, as stated, fails: ["ALT"] is not an entry of the list and has 3
    characters, yet it contains ["LT"], so the code starts from
    ["ALT.NS"] and never consults the bare symbol. *)
Lemma resolution_order_as_specified_fails : ~ resolution_order_as_specified.
Proof.
  intros H. specialize (H no_float_of_str yf_silent "ALT" yf_silent_quiet).
  vm_compute in H. discriminate H.
Qed.

(** What the code does on the two inputs the amended statement leaves
    aside. *)
Example tried_dotted_ns :
  tried no_float_of_str yf_silent "TCS.NS" = ["TCS.NS"; "TCS.NS.BO"].
Proof. reflexivity. Qed.
Example tried_lower_case :
  tried no_float_of_str yf_silent " aapl" = ["AAPL"; " aapl.NS"; " aapl.BO"].
Proof. reflexivity. Qed.

(** ** First non-empty candidate *)

(** The builder fails only on a live price that is a string [float]
    rejects. *)
Lemma build_total (float_of_str : string -> option float) (sym c : string)
    (info : gmap string pyval) (hist : list bar) :
  hist <> [] ->
  (forall s, info !! "currentPrice" <> Some (PStr s)) ->
  exists r, build_stock_data float_of_str sym c info hist = Some r.
Proof.
  intros Hne Hprice. unfold build_stock_data.
  assert (Hlast : forall f : bar -> float, exists v, iloc_last (map f hist) = Some v).
  { intros f. unfold iloc_last. destruct (last (map f hist)) as [v|] eqn:E; eauto.
    apply last_None in E. destruct hist; [congruence|discriminate]. }
  assert (Hcalc : exists ch, calc_six_month_change hist = Some ch).
  { unfold calc_six_month_change. destruct (1 <? length hist)%nat; eauto.
    destruct (Hlast Close) as [v ->]. unfold iloc_first.
    destruct hist as [|b hist]; [congruence|]. cbn. eauto. }
  destruct Hcalc as [ch ->]. cbn [mbind option_bind].
  assert (Hpick : exists p, pick_current_price info hist = Some p
                            /\ forall s, p <> PStr s).
  { unfold pick_current_price, dict_get.
    destruct (info !! "currentPrice") as [[|x|s]|] eqn:E; cbn.
    - destruct hist; [congruence|]. cbn [is_empty negb].
      destruct (Hlast Close) as [v ->]. cbn. eauto.
    - destruct (x =? 0)%float.
      + destruct hist; [congruence|]. cbn [is_empty negb].
        destruct (Hlast Close) as [v ->]. cbn. eauto.
      + eauto.
    - exfalso. apply (Hprice s). reflexivity.
    - destruct hist; [congruence|]. cbn [is_empty negb].
      destruct (Hlast Close) as [v ->]. cbn. eauto. }
  destruct Hpick as (p & -> & Hp). cbn [mbind option_bind].
  assert (Hf : exists pf, (if truthy p then py_float float_of_str p
                           else Some 0%float) = Some pf).
  { destruct p as [|x|s]; cbn; [eauto| |destruct (Hp s); reflexivity].
    destruct (negb _); eauto. }
  destruct Hf as [pf ->]. cbn [mbind option_bind].
  assert (Hpct : forall k, exists v, percent_field info k = Some v).
  { intros k. unfold percent_field, dict_get, dict_get_or.
    destruct (info !! k) as [[|x|s]|]; cbn; eauto.
    - destruct (negb _); cbn; eauto.
    - destruct (negb _); cbn; eauto. }
  destruct (Hpct "dividendYield") as [dy ->].
  destruct (Hpct "returnOnEquity") as [ro ->]. cbn [mbind option_bind].
  destruct hist as [|b hist]; [congruence|]. cbn [is_empty negb].
  destruct (Hlast Volume) as [v ->]. cbn. eauto.
Qed.

(** C5. The fetcher accepts the first candidate, in resolution order,
    whose history is non-empty: when every earlier candidate answered
    with an empty history, the result is the record built from that
    candidate's own snapshot and history and the raw input alone, the
    provider was consulted for exactly the candidates up to it, and the
    record, which exists unless the live price is a string, carries that
    candidate as its resolved symbol and that history as its series. *)
Theorem first_nonempty_candidate_wins (float_of_str : string -> option float)
    (yf : yfinance) (sym : string) (pre post : list string) (c : string)
    (info : gmap string pyval) (hist : list bar) :
  candidates sym = pre ++ c :: post ->
  Forall (quiet_empty yf) pre ->
  ticker_info yf c = Some info -> ticker_history yf c = Some hist -> hist <> [] ->
  get_stock_info float_of_str yf sym = build_stock_data float_of_str sym c info hist
  /\ tried float_of_str yf sym = pre ++ [c]
  /\ (forall r, get_stock_info float_of_str yf sym = Some r ->
        normalized_symbol r = c /\ symbol r = sym
        /\ price_history r = close_series hist)
  /\ ((forall s, info !! "currentPrice" <> Some (PStr s)) ->
      exists r, get_stock_info float_of_str yf sym = Some r
                /\ normalized_symbol r = c).
Proof.
  intros Hc Hpre Hi Hh Hne.
  destruct (get_stock_info_accept float_of_str yf sym pre post c info hist
              Hc Hpre Hi Hh Hne) as [Hget Htried].
  split; [exact Hget|]. split; [exact Htried|]. split.
  - intros r Hr. rewrite Hget in Hr.
    destruct (build_fields float_of_str _ _ _ _ _ Hr) as (Hs & Hn & Hp & _).
    auto.
  - intros Hprice.
    destruct (build_total float_of_str sym c info hist Hne Hprice) as [r Hr].
    exists r. rewrite Hget. split; [exact Hr|].
    apply (build_fields float_of_str _ _ _ _ _ Hr).
Qed.

(** The specification's scenario: the first two candidates of ["XYZ"]
    have no history, the third has 40 rows. *)
Lemma first_nonempty_candidate_wins_witness :
  exists r, get_stock_info no_float_of_str (yf_only "XYZ.BO") "XYZ" = Some r
            /\ normalized_symbol r = "XYZ.BO"
            /\ length (price_history r) = 40%nat
            /\ tried no_float_of_str (yf_only "XYZ.BO") "XYZ"
               = ["XYZ"; "XYZ.NS"; "XYZ.BO"].
Proof.
  destruct (first_nonempty_candidate_wins no_float_of_str (yf_only "XYZ.BO")
              "XYZ" ["XYZ"; "XYZ.NS"] [] "XYZ.BO"
              {[ "dividendYield" := PNum 0x1.999999999999ap-6%float;
                 "longName" := PStr "Known Ltd" ]}
              (ramp 40 1%Z 100%float))
    as (_ & Htried & Hfields & Hsome).
  - reflexivity.
  - repeat constructor; exists ∅; reflexivity.
  - reflexivity.
  - reflexivity.
  - discriminate.
  - destruct Hsome as (r & Hr & Hn).
    + intros s. vm_compute. discriminate.
    + exists r. split; [exact Hr|]. split; [exact Hn|]. split; [|exact Htried].
      destruct (Hfields r Hr) as (_ & _ & ->). reflexivity.
Defined.

(** ** The batch *)

Section Batch.

Variable float_of_str : string -> option float.
Variable yf : yfinance.

Lemma batch_lookup (symbols : list string) (acc : gmap string stock_data)
    (s : string) :
  foldl (analyze_step float_of_str yf) acc symbols !! s =
    if decide (s ∈ symbols) then
      match get_stock_info float_of_str yf s with
      | Some r => Some r
      | None => acc !! s
      end
    else acc !! s.
Proof.
  revert acc. induction symbols as [|x symbols IH]; intros acc; cbn [foldl].
  - rewrite decide_False by apply not_elem_of_nil. reflexivity.
  - rewrite IH.
    destruct (decide (x = s)) as [->|Hne].
    + rewrite (decide_True (P := s ∈ s :: symbols)) by apply list_elem_of_here.
      unfold analyze_step.
      destruct (get_stock_info float_of_str yf s) as [r|] eqn:Hr.
      * rewrite lookup_insert_eq. destruct (decide (s ∈ symbols)); reflexivity.
      * destruct (decide (s ∈ symbols)); reflexivity.
    + assert (Hl : analyze_step float_of_str yf acc x !! s = acc !! s).
      { unfold analyze_step. destruct (get_stock_info float_of_str yf x);
          [apply lookup_insert_ne; exact Hne | reflexivity]. }
      rewrite Hl.
      destruct (decide (s ∈ symbols)) as [Hin|Hnin].
      * rewrite decide_True by (apply list_elem_of_further; exact Hin). reflexivity.
      * rewrite decide_False; [reflexivity|].
        intros H. apply elem_of_cons in H as [->|H]; [congruence|contradiction].
Qed.

Lemma analyze_stocks_lookup (symbols : list string) (s : string) :
  analyze_stocks float_of_str yf symbols !! s =
    if decide (s ∈ symbols) then get_stock_info float_of_str yf s else None.
Proof.
  unfold analyze_stocks. rewrite batch_lookup, lookup_empty.
  destruct (decide (s ∈ symbols)); [|reflexivity].
  destruct (get_stock_info float_of_str yf s); reflexivity.
Qed.

Lemma get_stock_info_history (sym : string) (r : stock_data) :
  get_stock_info float_of_str yf sym = Some r -> price_history r <> [].
Proof.
  intros H.
  destruct (get_stock_info_inv float_of_str yf sym r H)
    as (pre & c & post & info & hist & _ & _ & _ & _ & Hne & Hb).
  destruct (build_fields float_of_str _ _ _ _ _ Hb) as (_ & _ & Hp & _).
  rewrite Hp. intros E. apply Hne, close_series_nil, E.
Qed.

End Batch.

(** C9. The result of [analyze_stocks] holds, under each requested
    symbol, exactly what [get_stock_info] returns for it: a symbol whose
    fetch returns [None] (no candidate has data, or an exception) is
    absent, every other requested symbol is present whatever happened to
    its neighbours, nothing else is present, and every record present has
    a non-empty price history. *)
Theorem analyze_stocks_keeps_successes (float_of_str : string -> option float)
    (yf : yfinance) (symbols : list string) :
  (forall s, s ∈ symbols ->
     analyze_stocks float_of_str yf symbols !! s = get_stock_info float_of_str yf s)
  /\ (forall s, s ∉ symbols -> analyze_stocks float_of_str yf symbols !! s = None)
  /\ (forall s r, analyze_stocks float_of_str yf symbols !! s = Some r ->
        s ∈ symbols /\ get_stock_info float_of_str yf s = Some r
        /\ symbol r = s /\ price_history r <> []).
Proof.
  split; [|split].
  - intros s Hin. rewrite analyze_stocks_lookup, decide_True by exact Hin.
    reflexivity.
  - intros s Hnin. rewrite analyze_stocks_lookup, decide_False by exact Hnin.
    reflexivity.
  - intros s r. rewrite analyze_stocks_lookup.
    destruct (decide (s ∈ symbols)) as [Hin|]; [|discriminate].
    intros Hr. split; [exact Hin|]. split; [exact Hr|]. split.
    + destruct (get_stock_info_inv float_of_str yf s r Hr)
        as (pre & c & post & info & hist & _ & _ & _ & _ & _ & Hb).
      apply (build_fields float_of_str _ _ _ _ _ Hb).
    + apply (get_stock_info_history float_of_str yf s r Hr).
Qed.

(** A batch in which the first symbol has no data and the second raises:
    the third is still analysed. *)
Example batch_survives_failures :
  map fst (map_to_list
    (analyze_stocks no_float_of_str
       {| ticker_info := fun s => if String.eqb s "BAD2" then None
                                  else ticker_info (yf_only "MSFT") s;
          ticker_history := ticker_history (yf_only "MSFT") |}
       ["BAD1"; "BAD2"; "MSFT"]))
  = ["MSFT"].
Proof. vm_compute. reflexivity. Qed.

Lemma analyze_stocks_keeps_successes_witness :
  analyze_stocks no_float_of_str (yf_only "MSFT") ["BAD1"; "MSFT"] !! "BAD1" = None
  /\ exists r, analyze_stocks no_float_of_str (yf_only "MSFT") ["BAD1"; "MSFT"]
               !! "MSFT" = Some r.
Proof.
  destruct (analyze_stocks_keeps_successes no_float_of_str (yf_only "MSFT")
              ["BAD1"; "MSFT"]) as (Hin & _ & _).
  split.
  - rewrite Hin; [reflexivity|]. apply list_elem_of_here.
  - rewrite Hin; [|apply list_elem_of_further, list_elem_of_here].
    vm_compute. eexists. reflexivity.
Defined.

(** ** Exceptions *)

(** C6, as the code has it.  An exception raised while a candidate is
    tried ends the fetch for that symbol: [get_stock_info] returns [None],
    the candidates after it are not consulted, and the symbol is absent
    from every batch result. *)
Theorem exception_abandons_candidates (float_of_str : string -> option float)
    (yf : yfinance) (sym : string) (pre post : list string) (c : string) :
  candidates sym = pre ++ c :: post ->
  Forall (quiet_empty yf) pre ->
  raises_at yf c ->
  get_stock_info float_of_str yf sym = None
  /\ tried float_of_str yf sym = pre ++ [c]
  /\ forall symbols, analyze_stocks float_of_str yf symbols !! sym = None.
Proof.
  intros Hc Hpre Hr.
  destruct (get_stock_info_raise float_of_str yf sym pre post c Hc Hpre Hr)
    as [Hnone Htried].
  split; [exact Hnone|]. split; [exact Htried|].
  intros symbols. rewrite analyze_stocks_lookup, Hnone.
  destruct (decide (sym ∈ symbols)); reflexivity.
Qed.

Lemma exception_abandons_candidates_witness :
  get_stock_info no_float_of_str yf_flaky "AAPL" = None
  /\ tried no_float_of_str yf_flaky "AAPL" = ["AAPL"].
Proof.
  destruct (exception_abandons_candidates no_float_of_str yf_flaky "AAPL"
              [] ["AAPL.NS"; "AAPL.BO"] "AAPL") as (Hnone & Htried & _).
  - reflexivity.
  - constructor.
  - left. reflexivity.
  - split; [exact Hnone|exact Htried].
Defined.

(** C6, as stated, fails: with ["AAPL"] raising and ["AAPL.NS"] holding
    data the fetch returns nothing, while with ["AAPL"] merely empty it
    returns the record of ["AAPL.NS"]. *)
Lemma failure_like_empty_history_fails : ~ failure_like_empty_history.
Proof.
  intros H.
  specialize (H no_float_of_str yf_flaky "AAPL" "AAPL").
  assert (Hin : In "AAPL" (candidates "AAPL")) by (left; reflexivity).
  assert (Hr : raises_at yf_flaky "AAPL") by (left; reflexivity).
  specialize (H Hin Hr). vm_compute in H. discriminate H.
Qed.

(** ** Six-month change *)

Lemma chronological_head (series : list (Z * float)) (a x : Z * float) :
  chronological series -> head series = Some a -> x ∈ series -> (a.1 <= x.1)%Z.
Proof.
  intros Hs Hh Hx. destruct series as [|b series]; [discriminate|].
  injection Hh as ->. apply StronglySorted_inv in Hs as [_ Hall].
  apply elem_of_cons in Hx as [->|Hx]; [lia|].
  rewrite Forall_forall in Hall. apply Hall in Hx. lia.
Qed.

Lemma chronological_last (series : list (Z * float)) (z x : Z * float) :
  chronological series -> last series = Some z -> x ∈ series -> (x.1 <= z.1)%Z.
Proof.
  intros Hs. induction Hs as [|b series Hs IH Hall]; intros Hl Hx.
  - discriminate.
  - apply elem_of_cons in Hx as [->|Hx].
    + destruct series as [|b' series]; [injection Hl as ->; lia|].
      rewrite Forall_forall in Hall.
      assert (Hz : z ∈ b' :: series).
      { apply last_Some_elem_of. exact Hl. }
      specialize (Hall z Hz). lia.
    + destruct series as [|b' series]; [inversion Hx|].
      apply IH; [exact Hl|exact Hx].
Qed.

Lemma last_close_series (hist : list bar) :
  last (close_series hist) = (fun b => (bar_date b, Close b)) <$> last hist.
Proof. unfold close_series. rewrite <- fmap_last. reflexivity. Qed.

Lemma calc_six_month_change_spec (hist : list bar) :
  (forall first rest, hist = first :: rest -> rest <> [] ->
     exists lst, last hist = Some lst
       /\ calc_six_month_change hist
          = Some (((Close lst - Close first) / Close first) * 100)%float)
  /\ ((length hist < 2)%nat -> calc_six_month_change hist = Some 0%float).
Proof.
  split.
  - intros first rest -> Hrest. unfold calc_six_month_change.
    destruct rest as [|b rest]; [congruence|]. cbn [length Nat.ltb Nat.leb].
    unfold iloc_last, iloc_first.
    destruct (last (first :: b :: rest)) as [lst|] eqn:El;
      [|apply last_None in El; discriminate].
    exists lst. split; [reflexivity|].
    change (last (map Close (first :: b :: rest)))
      with (last (Close <$> (first :: b :: rest))).
    rewrite fmap_last, El. reflexivity.
  - intros Hlen. unfold calc_six_month_change.
    destruct hist as [|a [|b hist]]; cbn in *; try reflexivity. lia.
Qed.

(** C1. In every record returned by [get_stock_info], when the closing
    series has at least 2 points the six-month change is
    [(last - first) / first * 100] on the first and last closes of the
    series, which in a chronological series are the earliest and the
    latest ones; when it has fewer than 2 points the change is 0, which
    is also what lines 76-79 compute for any history of fewer than 2
    rows. *)
Theorem six_month_change_formula (float_of_str : string -> option float)
    (yf : yfinance) (sym : string) (r : stock_data) :
  get_stock_info float_of_str yf sym = Some r ->
  ((2 <= length (price_history r))%nat ->
     exists p0 p1,
       head (price_history r) = Some p0 /\ last (price_history r) = Some p1
       /\ six_month_change r = (((p1.2 - p0.2) / p0.2) * 100)%float
       /\ (chronological (price_history r) ->
           forall x, x ∈ price_history r -> (p0.1 <= x.1 <= p1.1)%Z))
  /\ ((length (price_history r) < 2)%nat -> six_month_change r = 0%float)
  /\ (forall hist : list bar,
        (length hist < 2)%nat -> calc_six_month_change hist = Some 0%float).
Proof.
  intros Hr.
  destruct (get_stock_info_inv float_of_str yf sym r Hr)
    as (pre & c & post & info & hist & _ & _ & _ & _ & Hne & Hb).
  destruct (build_fields float_of_str _ _ _ _ _ Hb)
    as (_ & _ & Hp & Hchange & _).
  destruct (calc_six_month_change_spec hist) as [Hlong Hshort].
  split; [|split].
  - intros Hlen. rewrite Hp in Hlen |- *.
    unfold close_series in Hlen. rewrite length_map in Hlen.
    destruct hist as [|first rest]; [cbn in Hlen; lia|].
    assert (Hrest : rest <> []) by (destruct rest; [cbn in Hlen; lia|discriminate]).
    destruct (Hlong first rest eq_refl Hrest) as (lst & Hl & Hcalc).
    exists (bar_date first, Close first), (bar_date lst, Close lst).
    split; [reflexivity|]. split; [rewrite last_close_series, Hl; reflexivity|].
    split; [cbn; congruence|].
    intros Hsorted x Hx. split.
    + apply (chronological_head _ (bar_date first, Close first) x Hsorted);
        [reflexivity|exact Hx].
    + apply (chronological_last _ (bar_date lst, Close lst) x Hsorted);
        [rewrite last_close_series, Hl; reflexivity|exact Hx].
  - intros Hlen. rewrite Hp in Hlen.
    unfold close_series in Hlen. rewrite length_map in Hlen.
    rewrite (Hshort Hlen) in Hchange. congruence.
  - intros hist' Hlen. apply (calc_six_month_change_spec hist'). exact Hlen.
Qed.

(** 40 closes from 100 to 139: the change is 39 percent. *)
Lemma six_month_change_formula_witness :
  exists r, get_stock_info no_float_of_str (yf_only "MSFT") "MSFT" = Some r
            /\ six_month_change r = (((139 - 100) / 100) * 100)%float
            /\ six_month_change r = 39%float.
Proof.
  assert (Hr : exists r, get_stock_info no_float_of_str (yf_only "MSFT") "MSFT"
                         = Some r) by (vm_compute; eexists; reflexivity).
  destruct Hr as [r Hr]. exists r. split; [exact Hr|].
  destruct (six_month_change_formula no_float_of_str (yf_only "MSFT") "MSFT" r Hr)
    as (Hlong & _ & _).
  assert (Hp : price_history r = close_series (ramp 40 1%Z 100%float)).
  { vm_compute in Hr. injection Hr as <-. vm_compute. reflexivity. }
  destruct Hlong as (p0 & p1 & H0 & H1 & Hc & _).
  { rewrite Hp. vm_compute. lia. }
  rewrite Hp in H0, H1. vm_compute in H0, H1.
  injection H0 as <-. injection H1 as <-.
  rewrite Hc. split; vm_compute; reflexivity.
Defined.

Example one_point_series_change :
  six_month_change <$>
    get_stock_info no_float_of_str
      {| ticker_info := fun _ => Some ∅;
         ticker_history := fun _ => Some [Bar 1%Z 100%float 5%float] |} "MSFT"
  = Some 0%float.
Proof. vm_compute. reflexivity. Qed.

(** ** Percent fields and the current price *)

Lemma percent_field_number (info : gmap string pyval) (key : string) (x : float) :
  info !! key = Some (PNum x) -> (x =? 0)%float = false ->
  percent_field info key = Some (PNum (x * 100)%float).
Proof.
  intros Hk Hx. unfold percent_field, dict_get, dict_get_or. rewrite Hk. cbn.
  rewrite Hx. reflexivity.
Qed.

Lemma percent_field_unavailable (info : gmap string pyval) (key : string) :
  missing_or_zero (info !! key) -> percent_field info key = Some PNone.
Proof.
  unfold percent_field, dict_get, dict_get_or.
  intros [Hk|[Hk|(x & Hk & Hx)]]; rewrite Hk; cbn; [reflexivity..|].
  rewrite Hx. reflexivity.
Qed.

Lemma record_from_accepted (float_of_str : string -> option float)
    (yf : yfinance) (sym : string) (r : stock_data) :
  get_stock_info float_of_str yf sym = Some r ->
  exists info hist,
    ticker_info yf (normalized_symbol r) = Some info
    /\ ticker_history yf (normalized_symbol r) = Some hist /\ hist <> []
    /\ build_stock_data float_of_str sym (normalized_symbol r) info hist = Some r.
Proof.
  intros Hr.
  destruct (get_stock_info_inv float_of_str yf sym r Hr)
    as (pre & c & post & info & hist & _ & _ & Hi & Hh & Hne & Hb).
  destruct (build_fields float_of_str _ _ _ _ _ Hb) as (_ & Hn & _).
  exists info, hist. rewrite Hn. auto.
Qed.

(** C7. In every record, the dividend-yield and ROE fields are the
    provider's number multiplied by 100 when that number is present and
    not zero, and [None] when it is absent, [None] or zero; [None] is not
    a number, so it differs from a stored 0. *)
Theorem percent_fields (float_of_str : string -> option float)
    (yf : yfinance) (sym : string) (r : stock_data) :
  get_stock_info float_of_str yf sym = Some r ->
  exists info,
    ticker_info yf (normalized_symbol r) = Some info
    /\ (forall x, info !! "dividendYield" = Some (PNum x) -> (x =? 0)%float = false ->
          dividend_yield r = PNum (x * 100)%float)
    /\ (missing_or_zero (info !! "dividendYield") -> dividend_yield r = PNone)
    /\ (forall x, info !! "returnOnEquity" = Some (PNum x) -> (x =? 0)%float = false ->
          roe r = PNum (x * 100)%float)
    /\ (missing_or_zero (info !! "returnOnEquity") -> roe r = PNone)
    /\ (forall z : float, PNone <> PNum z).
Proof.
  intros Hr.
  destruct (record_from_accepted float_of_str yf sym r Hr)
    as (info & hist & Hi & _ & _ & Hb).
  destruct (build_fields float_of_str _ _ _ _ _ Hb)
    as (_ & _ & _ & _ & Hdy & Hroe & _).
  exists info. split; [exact Hi|]. repeat split.
  - intros x Hk Hx. rewrite (percent_field_number _ _ _ Hk Hx) in Hdy. congruence.
  - intros Hm. rewrite (percent_field_unavailable _ _ Hm) in Hdy. congruence.
  - intros x Hk Hx. rewrite (percent_field_number _ _ _ Hk Hx) in Hroe. congruence.
  - intros Hm. rewrite (percent_field_unavailable _ _ Hm) in Hroe. congruence.
  - discriminate.
Qed.

(** The specification's example: a dividend-yield fraction of 0.025 is
    stored as 2.5, and the absent ROE as [None]. *)
Lemma percent_fields_witness :
  exists r, get_stock_info no_float_of_str (yf_only "MSFT") "MSFT" = Some r
            /\ dividend_yield r = PNum 2.5%float /\ roe r = PNone.
Proof.
  assert (Hr : exists r, get_stock_info no_float_of_str (yf_only "MSFT") "MSFT"
                         = Some r) by (vm_compute; eexists; reflexivity).
  destruct Hr as [r Hr]. exists r. split; [exact Hr|].
  destruct (percent_fields no_float_of_str (yf_only "MSFT") "MSFT" r Hr)
    as (info & Hi & Hdy & _ & _ & Hroe & _).
  assert (Hn : normalized_symbol r = "MSFT").
  { vm_compute in Hr. injection Hr as <-. reflexivity. }
  rewrite Hn in Hi. cbn in Hi. injection Hi as <-. split.
  - rewrite (Hdy 0x1.999999999999ap-6%float); reflexivity.
  - apply Hroe. left. reflexivity.
Defined.

(** C8. In every record, the current price is the snapshot's live price
    when that is a number other than zero, and otherwise, when it is
    absent, [None] or zero, the last close of the series, a zero close
    being stored as 0. *)
Theorem current_price_resolution (float_of_str : string -> option float)
    (yf : yfinance) (sym : string) (r : stock_data) :
  get_stock_info float_of_str yf sym = Some r ->
  exists info,
    ticker_info yf (normalized_symbol r) = Some info
    /\ (forall x, info !! "currentPrice" = Some (PNum x) -> (x =? 0)%float = false ->
          current_price r = x)
    /\ (missing_or_zero (info !! "currentPrice") ->
        exists p, last (price_history r) = Some p
          /\ (current_price r = p.2
              \/ ((p.2 =? 0)%float = true /\ current_price r = 0%float))).
Proof.
  intros Hr.
  destruct (record_from_accepted float_of_str yf sym r Hr)
    as (info & hist & Hi & _ & Hne & Hb).
  destruct (build_fields float_of_str _ _ _ _ _ Hb)
    as (_ & _ & Hp & _ & _ & _ & price & Hpick & Hconv).
  exists info. split; [exact Hi|]. split.
  - intros x Hk Hx. unfold pick_current_price, dict_get in Hpick.
    rewrite Hk in Hpick. cbn in Hpick. rewrite Hx in Hpick.
    injection Hpick as <-. cbn in Hconv. rewrite Hx in Hconv. cbn in Hconv.
    congruence.
  - intros Hm.
    assert (Hfall : PNum <$> iloc_last (map Close hist) = Some price).
    { unfold pick_current_price, dict_get in Hpick.
      destruct hist as [|b hist]; [congruence|]. cbn [is_empty negb] in Hpick.
      destruct Hm as [Hk|[Hk|(x & Hk & Hx)]]; rewrite Hk in Hpick;
        cbn in Hpick; [exact Hpick..|].
      rewrite Hx in Hpick. exact Hpick. }
    unfold iloc_last in Hfall.
    change (last (map Close hist)) with (last (Close <$> hist)) in Hfall.
    rewrite fmap_last in Hfall.
    destruct (last hist) as [lst|] eqn:El; [|discriminate].
    cbn in Hfall. injection Hfall as <-.
    exists (bar_date lst, Close lst). split.
    + rewrite Hp, last_close_series, El. reflexivity.
    + cbn in Hconv |- *. destruct (Close lst =? 0)%float; cbn in Hconv.
      * right. split; [reflexivity|congruence].
      * left. congruence.
Qed.

Lemma current_price_resolution_witness :
  (exists r, get_stock_info no_float_of_str (yf_live "MSFT") "MSFT" = Some r
             /\ current_price r = 250%float)
  /\ (exists r, get_stock_info no_float_of_str (yf_only "MSFT") "MSFT" = Some r
                /\ current_price r = 139%float).
Proof.
  split.
  - assert (Hr : exists r, get_stock_info no_float_of_str (yf_live "MSFT") "MSFT"
                           = Some r) by (vm_compute; eexists; reflexivity).
    destruct Hr as [r Hr]. exists r. split; [exact Hr|].
    destruct (current_price_resolution no_float_of_str (yf_live "MSFT") "MSFT" r Hr)
      as (info & Hi & Hlive & _).
    assert (Hn : normalized_symbol r = "MSFT").
    { vm_compute in Hr. injection Hr as <-. reflexivity. }
    rewrite Hn in Hi. cbn in Hi. injection Hi as <-.
    apply Hlive; reflexivity.
  - assert (Hr : exists r, get_stock_info no_float_of_str (yf_only "MSFT") "MSFT"
                           = Some r) by (vm_compute; eexists; reflexivity).
    destruct Hr as [r Hr]. exists r. split; [exact Hr|].
    destruct (current_price_resolution no_float_of_str (yf_only "MSFT") "MSFT" r Hr)
      as (info & Hi & _ & Hfall).
    assert (Hn : normalized_symbol r = "MSFT").
    { vm_compute in Hr. injection Hr as <-. reflexivity. }
    assert (Hp : price_history r = close_series (ramp 40 1%Z 100%float)).
    { vm_compute in Hr. injection Hr as <-. vm_compute. reflexivity. }
    rewrite Hn in Hi. cbn in Hi. injection Hi as <-.
    destruct Hfall as (p & Hl & Hcur); [left; reflexivity|].
    rewrite Hp in Hl. vm_compute in Hl. injection Hl as <-.
    destruct Hcur as [Hcur|[Hz _]]; [exact Hcur|].
    vm_compute in Hz. discriminate Hz.
Defined.

(** ** The Pearson coefficient *)














(** ** Alignment *)

Lemma price_data_usable (sd : gmap string stock_data) :
  price_data sd = price_history <$> usable sd.
Proof.
  apply map_eq. intros s. unfold price_data, usable.
  rewrite lookup_omap, lookup_fmap, map_lookup_filter.
  destruct (sd !! s) as [r|]; [|reflexivity]. cbn.
  destruct (price_history r) eqn:E; cbn.
  - rewrite option_guard_False by (cbn; congruence). reflexivity.
  - rewrite option_guard_True by (cbn; congruence). cbn. congruence.
Qed.

Lemma price_data_size (sd : gmap string stock_data) :
  size (price_data sd) = size (usable sd).
Proof. rewrite price_data_usable. apply map_size_fmap. Qed.


Lemma notna_reindex (series : list (Z * float)) (d : Z) :
  notna (reindex series d)
  = match series_at series d with Some v => notna v | None => false end.
Proof. unfold reindex. destruct (series_at series d); reflexivity. Qed.

Lemma row_complete (sd : gmap string stock_data) (d : Z) :
  forallb notna (map (fun p : string * list (Z * float) => reindex p.2 d)
                     (map_to_list (price_data sd)))
  = overlaps sd d.
Proof.
  unfold overlaps. induction (map_to_list (price_data sd)) as [|p l IH];
    [reflexivity|].
  cbn [map forallb]. rewrite IH, notna_reindex. reflexivity.
Qed.

Lemma filter_map_swap {A B : Type} (f : B -> bool) (g : A -> B) (l : list A) :
  List.filter f (map g l) = map g (List.filter (fun x => f (g x)) l).
Proof.
  induction l as [|a l IH]; [reflexivity|]. cbn.
  destruct (f (g a)); cbn; rewrite IH; reflexivity.
Qed.

(** The rows left by [dropna] are those of the dates every usable
    series has a value for. *)
Lemma aligned_rows (sd : gmap string stock_data) :
  frame_rows (dropna (DataFrame (map_to_list (price_data sd))))
  = map (fun d => (d, map (fun p : string * list (Z * float) => reindex p.2 d)
                          (map_to_list (price_data sd))))
        (List.filter (overlaps sd)
           (union_index (map snd (map_to_list (price_data sd))))).
Proof.
  unfold dropna, DataFrame. cbn [frame_rows]. rewrite filter_map_swap.
  f_equal. apply List.filter_ext. intros d. cbn [snd]. apply row_complete.
Qed.




Lemma filter_nil_all {A : Type} (f : A -> bool) (l : list A) :
  (forall x, f x = false) -> List.filter f l = [].
Proof.
  intros H. induction l as [|a l IH]; [reflexivity|]. cbn. rewrite H. exact IH.
Qed.



Lemma aligned_prices_none (sd : gmap string stock_data) :
  (size (usable sd) < 2)%nat \/ (forall d, overlaps sd d = false) ->
  aligned_prices sd = None.
Proof.
  intros H. unfold aligned_prices. cbv zeta. rewrite price_data_size.
  destruct (Nat.ltb_spec (size (usable sd)) 2) as [|Hge]; [reflexivity|].
  destruct (alignable (map_to_list (price_data sd))); [|reflexivity].
  cbn [negb]. destruct H as [H|H]; [lia|].
  unfold frame_empty. rewrite aligned_rows, (filter_nil_all _ _ H). reflexivity.
Qed.




(** ** The matrix *)









(** ** Columns that cannot be correlated *)















(** * Further properties of the code *)

(** ** Cleaning a symbol *)

Lemma upper_ascii_idem (c : ascii) :
  PyStr.upper_ascii (PyStr.upper_ascii c) = PyStr.upper_ascii c.
Proof.
  destruct c as [[] [] [] [] [] [] [] []]; reflexivity.
Qed.

Lemma isspace_upper_ascii (c : ascii) :
  PyStr.isspace (PyStr.upper_ascii c) = PyStr.isspace c.
Proof.
  destruct c as [[] [] [] [] [] [] [] []]; reflexivity.
Qed.

Lemma upper_idem (s : string) : PyStr.upper (PyStr.upper s) = PyStr.upper s.
Proof.
  induction s as [|c s IH]; [reflexivity|].
  cbn. rewrite upper_ascii_idem, IH. reflexivity.
Qed.

Lemma append_cons (c : ascii) (s t : string) :
  (String c s ++ t)%string = String c (s ++ t)%string.
Proof. reflexivity. Qed.

Lemma upper_app (s t : string) :
  PyStr.upper (s ++ t)%string = (PyStr.upper s ++ PyStr.upper t)%string.
Proof.
  induction s as [|c s IH]; [reflexivity|].
  rewrite append_cons. cbn [PyStr.upper]. rewrite append_cons, IH. reflexivity.
Qed.

Lemma upper_lstrip (s : string) :
  PyStr.upper (PyStr.lstrip s) = PyStr.lstrip (PyStr.upper s).
Proof.
  induction s as [|c s IH]; [reflexivity|].
  cbn. rewrite isspace_upper_ascii.
  destruct (PyStr.isspace c); [exact IH|reflexivity].
Qed.

Lemma upper_rstrip (s : string) :
  PyStr.upper (PyStr.rstrip s) = PyStr.rstrip (PyStr.upper s).
Proof.
  induction s as [|c s IH]; [reflexivity|].
  cbn. rewrite <- IH, isspace_upper_ascii.
  destruct (PyStr.rstrip s); cbn; [destruct (PyStr.isspace c)|]; reflexivity.
Qed.

Lemma upper_strip (s : string) :
  PyStr.upper (PyStr.strip s) = PyStr.strip (PyStr.upper s).
Proof. unfold PyStr.strip. rewrite upper_rstrip, upper_lstrip. reflexivity. Qed.

Lemma lstrip_no_leading_space (s : string) : no_leading_space (PyStr.lstrip s).
Proof.
  induction s as [|c s IH]; [exact I|].
  cbn. destruct (PyStr.isspace c) eqn:E; [exact IH|exact E].
Qed.

Lemma lstrip_fixed (s : string) : no_leading_space s -> PyStr.lstrip s = s.
Proof. destruct s as [|c s]; [reflexivity|]. cbn. intros ->. reflexivity. Qed.

Lemma rstrip_no_leading_space (s : string) :
  no_leading_space s -> no_leading_space (PyStr.rstrip s).
Proof.
  destruct s as [|c s]; [intros H; exact H|]. cbn. intros Hc.
  destruct (PyStr.rstrip s); [rewrite Hc|]; exact Hc.
Qed.

Lemma rstrip_idem (s : string) : PyStr.rstrip (PyStr.rstrip s) = PyStr.rstrip s.
Proof.
  induction s as [|c s IH]; [reflexivity|].
  cbn. destruct (PyStr.rstrip s) as [|d r] eqn:E.
  - destruct (PyStr.isspace c) eqn:Ec; [reflexivity|]. cbn. rewrite Ec. reflexivity.
  - cbn [PyStr.rstrip] in IH |- *. rewrite IH. reflexivity.
Qed.

Lemma strip_idem (s : string) : PyStr.strip (PyStr.strip s) = PyStr.strip s.
Proof.
  unfold PyStr.strip.
  rewrite (lstrip_fixed (PyStr.rstrip (PyStr.lstrip s))).
  - apply rstrip_idem.
  - apply rstrip_no_leading_space, lstrip_no_leading_space.
Qed.

Lemma strip_no_leading_space (s : string) : no_leading_space (PyStr.strip s).
Proof. apply rstrip_no_leading_space, lstrip_no_leading_space. Qed.

Lemma clean_idem (s : string) : clean (clean s) = clean s.
Proof.
  unfold clean. rewrite upper_strip, upper_idem, strip_idem. reflexivity.
Qed.

Lemma clean_upper (s : string) : clean s = s -> PyStr.upper s = s.
Proof.
  intros H. rewrite <- H at 1. unfold clean.
  rewrite upper_strip, upper_idem. exact H.
Qed.

Lemma clean_no_leading_space (s : string) : clean s = s -> no_leading_space s.
Proof. intros <-. apply strip_no_leading_space. Qed.

Lemma rstrip_app_fixed (s t : string) :
  PyStr.rstrip t = t -> t <> EmptyString ->
  PyStr.rstrip (s ++ t)%string = (s ++ t)%string.
Proof.
  intros Ht Hne. induction s as [|c s IH]; [exact Ht|].
  rewrite append_cons. cbn [PyStr.rstrip]. rewrite IH.
  destruct (s ++ t)%string eqn:E; [|reflexivity].
  destruct s; [change (t = EmptyString) in E; congruence|].
  rewrite append_cons in E. discriminate E.
Qed.

(** Appending an exchange suffix to a clean symbol gives a clean symbol. *)
Lemma clean_suffix (s : string) (a b : ascii) :
  clean s = s ->
  clean (String "." (String a (String b EmptyString))) =
    String "." (String a (String b EmptyString)) ->
  clean (s ++ String "." (String a (String b EmptyString)))%string
  = (s ++ String "." (String a (String b EmptyString)))%string.
Proof.
  intros Hs Hsuf. set (suf := String "." (String a (String b EmptyString))) in *.
  unfold clean. rewrite upper_app, (clean_upper s Hs), (clean_upper suf Hsuf).
  unfold PyStr.strip. rewrite lstrip_fixed.
  - apply rstrip_app_fixed; [|discriminate].
    unfold clean, PyStr.strip in Hsuf. rewrite (clean_upper suf Hsuf) in Hsuf.
    cbn [PyStr.lstrip] in Hsuf. subst suf.
    change (PyStr.isspace ".") with false in Hsuf. cbv iota in Hsuf. exact Hsuf.
  - pose proof (clean_no_leading_space s Hs) as Hl.
    destruct s; [reflexivity|exact Hl].
Qed.

Lemma clean_NS (s : string) : clean s = s -> clean (s ++ ".NS")%string = (s ++ ".NS")%string.
Proof. intros H. apply (clean_suffix s "N" "S" H). reflexivity. Qed.

Lemma clean_BO (s : string) : clean s = s -> clean (s ++ ".BO")%string = (s ++ ".BO")%string.
Proof. intros H. apply (clean_suffix s "B" "O" H). reflexivity. Qed.

Lemma normalize_cases (s : string) :
  _normalize_symbol s = clean s
  \/ (PyStr.contains "." (clean s) = false
      /\ _normalize_symbol s = (clean s ++ ".NS")%string).
Proof.
  unfold _normalize_symbol. cbv zeta.
  destruct (PyStr.contains "." (clean s)); [left; reflexivity|].
  destruct (looks_indian (clean s)); [right|left]; auto.
Qed.

Lemma normalize_clean (s : string) : clean (_normalize_symbol s) = _normalize_symbol s.
Proof.
  destruct (normalize_cases s) as [->|[_ ->]]; [apply clean_idem|].
  apply clean_NS, clean_idem.
Qed.

(** X1. Normalising is idempotent: a symbol that [_normalize_symbol]
    returned is returned unchanged when it is normalised again, and it is
    upper-case and free of surrounding white space. *)
Theorem normalize_symbol_idempotent (s : string) :
  _normalize_symbol (_normalize_symbol s) = _normalize_symbol s
  /\ PyStr.upper (_normalize_symbol s) = _normalize_symbol s
  /\ PyStr.strip (_normalize_symbol s) = _normalize_symbol s.
Proof.
  pose proof (normalize_clean s) as Hc.
  split; [|split].
  - unfold _normalize_symbol at 1. cbv zeta. rewrite Hc.
    destruct (PyStr.contains "." (_normalize_symbol s)) eqn:Hdot; [reflexivity|].
    destruct (normalize_cases s) as [Hn|[_ Hn]].
    + rewrite Hn in Hdot |- *.
      unfold _normalize_symbol in Hn. cbv zeta in Hn. rewrite Hdot in Hn.
      destruct (looks_indian (clean s)); [|reflexivity].
      exfalso. assert (Hd : PyStr.contains "." (clean s) = true).
      { rewrite <- Hn at 1. apply contains_dot_suffix. }
      congruence.
    + exfalso. rewrite Hn, contains_dot_suffix in Hdot. discriminate.
  - apply clean_upper, Hc.
  - rewrite <- (clean_upper _ Hc) at 1. exact Hc.
Qed.

(** ** Symbols typed into the dashboard *)

Lemma upper_nonempty (s : string) : PyStr.upper s = EmptyString -> s = EmptyString.
Proof. destruct s; [reflexivity|discriminate]. Qed.

Lemma candidates_members (sym c : string) :
  c ∈ candidates sym ->
  c = _normalize_symbol sym \/ c = (sym ++ ".NS")%string \/ c = (sym ++ ".BO")%string.
Proof.
  unfold candidates. cbv zeta.
  destruct (PyStr.endswith ".NS" _); [|destruct (PyStr.contains "." _)];
    rewrite ?elem_of_cons, elem_of_nil; intuition.
Qed.

(** X2. Every symbol the dashboard passes on from its input line is
    non-empty, upper-case and trimmed, so that for such a symbol every
    candidate the fetcher may consult is upper-case and trimmed too. *)
Theorem parse_symbols_clean (stock_input s : string) :
  s ∈ parse_symbols stock_input ->
  s <> EmptyString /\ clean s = s
  /\ forall c, c ∈ candidates s -> clean c = c.
Proof.
  unfold parse_symbols. intros Hs.
  apply list_elem_of_fmap in Hs as (p & Hsp & Hp). subst s.
  apply list_elem_of_In, List.filter_In in Hp as [_ Hne].
  apply negb_true_iff, String.eqb_neq in Hne.
  assert (Hclean : clean (PyStr.upper (PyStr.strip p)) = PyStr.upper (PyStr.strip p)).
  { unfold clean. rewrite upper_idem, <- upper_strip, strip_idem. reflexivity. }
  split; [|split; [exact Hclean|]].
  - intros H. apply Hne, upper_nonempty, H.
  - intros c Hc. apply candidates_members in Hc as [-> | [-> | ->]].
    + apply normalize_clean.
    + apply clean_NS, Hclean.
    + apply clean_BO, Hclean.
Qed.

Lemma parse_symbols_clean_witness :
  parse_symbols " reliance , aapl,, tcs.ns ,  " = ["RELIANCE"; "AAPL"; "TCS.NS"]
  /\ clean "RELIANCE" = "RELIANCE".
Proof.
  split; [reflexivity|].
  destruct (parse_symbols_clean " reliance , aapl,, tcs.ns ,  " "RELIANCE")
    as (_ & Hclean & _); [|exact Hclean].
  vm_compute. apply list_elem_of_here.
Defined.

(** ** The provider lookups of one fetch *)

Lemma append_length (s t : string) :
  String.length (s ++ t)%string = (String.length s + String.length t)%nat.
Proof.
  induction s as [|c s IH]; [reflexivity|].
  rewrite append_cons. cbn [String.length]. rewrite IH. reflexivity.
Qed.

Lemma append_inv_head (s t u : string) : (s ++ t)%string = (s ++ u)%string -> t = u.
Proof.
  induction s as [|c s IH]; [exact (fun H => H)|].
  rewrite !append_cons. intros [= H]. exact (IH H).
Qed.

Lemma endswith_NS_BO (s : string) : PyStr.endswith ".NS" (s ++ ".BO")%string = false.
Proof.
  induction s as [|c s IH]; [reflexivity|].
  rewrite append_cons. cbn [PyStr.endswith]. rewrite IH, orb_false_r.
  apply String.eqb_neq. intros H. apply (f_equal String.length) in H.
  cbn [String.length] in H. rewrite append_length in H. cbn in H. lia.
Qed.

Lemma candidates_NoDup (sym : string) : NoDup (candidates sym).
Proof.
  unfold candidates. cbv zeta.
  destruct (PyStr.endswith ".NS" (_normalize_symbol sym)) eqn:Hns.
  - apply NoDup_cons. split; [|apply NoDup_singleton].
    rewrite list_elem_of_singleton. intros H.
    rewrite H, endswith_NS_BO in Hns. discriminate.
  - destruct (PyStr.contains "." (_normalize_symbol sym)) eqn:Hdot;
      [apply NoDup_singleton|].
    apply NoDup_cons. split.
    + rewrite !elem_of_cons, elem_of_nil. intros [H|[H|[]]];
        rewrite H, contains_dot_suffix in Hdot; discriminate.
    + apply NoDup_cons. split; [|apply NoDup_singleton].
      rewrite list_elem_of_singleton. intros H.
      apply append_inv_head in H. discriminate.
Qed.

Lemma candidates_length (sym : string) :
  (1 <= length (candidates sym) <= 3)%nat.
Proof.
  unfold candidates. cbv zeta.
  destruct (PyStr.endswith ".NS" _); [|destruct (PyStr.contains "." _)];
    cbn; lia.
Qed.

(** X3. One fetch consults the provider for at least 1 and at most 3
    symbols, never for the same symbol twice, and always for the
    normalised symbol first. *)
Theorem fetch_lookups_bounded (float_of_str : string -> option float)
    (yf : yfinance) (sym : string) :
  (1 <= length (tried float_of_str yf sym) <= 3)%nat
  /\ NoDup (tried float_of_str yf sym)
  /\ head (tried float_of_str yf sym) = Some (_normalize_symbol sym).
Proof.
  destruct (tried_candidates float_of_str yf sym) as [n Hn].
  pose proof (candidates_length sym) as Hlen.
  pose proof (candidates_NoDup sym) as Hnd.
  split; [|split].
  - rewrite Hn, length_take. lia.
  - rewrite Hn. rewrite <- (take_drop (S n) (candidates sym)) in Hnd.
    apply NoDup_app in Hnd. tauto.
  - apply tried_head.
Qed.

(** X4. [get_stock_info] returns a record exactly when some candidate,
    all candidates before it having answered with an empty history,
    answers with a non-empty history from which the record is built. *)
Theorem get_stock_info_some_iff (float_of_str : string -> option float)
    (yf : yfinance) (sym : string) (r : stock_data) :
  get_stock_info float_of_str yf sym = Some r <->
  exists pre c post info hist,
    candidates sym = pre ++ c :: post /\ Forall (quiet_empty yf) pre
    /\ ticker_info yf c = Some info /\ ticker_history yf c = Some hist
    /\ hist <> [] /\ build_stock_data float_of_str sym c info hist = Some r.
Proof.
  split.
  - apply get_stock_info_inv.
  - intros (pre & c & post & info & hist & Hc & Hpre & Hi & Hh & Hne & Hb).
    rewrite <- Hb.
    apply (get_stock_info_accept float_of_str yf sym pre post c info hist
             Hc Hpre Hi Hh Hne).
Qed.

(** ** The remaining fields of the record *)

Lemma build_other_fields (float_of_str : string -> option float) (sym c : string)
    (info : gmap string pyval) (hist : list bar) (r : stock_data) :
  hist <> [] ->
  build_stock_data float_of_str sym c info hist = Some r ->
  company_name r = py_or (py_or (dict_get info "longName")
                                (dict_get info "shortName")) (PStr sym)
  /\ pe_ratio r = dict_get_or info "trailingPE" (PStr "N/A")
  /\ forward_pe r = dict_get_or info "forwardPE" (PStr "N/A")
  /\ price_to_book r = dict_get_or info "priceToBook" (PStr "N/A")
  /\ debt_to_equity r = dict_get_or info "debtToEquity" (PStr "N/A")
  /\ market_cap r = dict_get_or info "marketCap" (PStr "N/A")
  /\ currency r = dict_get_or info "currency" (PStr "USD")
  /\ exchange r = dict_get_or info "exchange" (PStr "Unknown")
  /\ exists b, last hist = Some b
       /\ volume r = dict_get_or info "volume" (PNum (Volume b)).
Proof.
  unfold build_stock_data. intros Hne H.
  destruct (calc_six_month_change hist) as [ch|]; [|discriminate].
  destruct (pick_current_price info hist) as [p|]; [|discriminate].
  cbn [mbind option_bind] in H.
  destruct (if truthy p then py_float float_of_str p else Some 0%float) as [pf|];
    [|discriminate].
  cbn [mbind option_bind] in H.
  destruct (percent_field info "dividendYield") as [dy|]; [|discriminate].
  destruct (percent_field info "returnOnEquity") as [ro|]; [|discriminate].
  cbn [mbind option_bind] in H.
  destruct hist as [|b0 hist]; [congruence|]. cbn [is_empty negb] in H.
  unfold iloc_last in H.
  change (last (map Volume (b0 :: hist))) with (last (Volume <$> (b0 :: hist))) in H.
  rewrite fmap_last in H.
  destruct (last (b0 :: hist)) as [b|] eqn:El; [|discriminate].
  cbn in H. injection H as <-. cbn.
  repeat split. exists b. split; reflexivity.
Qed.

(** X5. The company name of a record is the snapshot's long name when
    that is set and not empty, else its short name when that is set and
    not empty, else the raw input symbol. *)
Theorem company_name_resolution (float_of_str : string -> option float)
    (yf : yfinance) (sym : string) (r : stock_data) :
  get_stock_info float_of_str yf sym = Some r ->
  exists info,
    ticker_info yf (normalized_symbol r) = Some info
    /\ (truthy (dict_get info "longName") = true ->
        company_name r = dict_get info "longName")
    /\ (truthy (dict_get info "longName") = false ->
        truthy (dict_get info "shortName") = true ->
        company_name r = dict_get info "shortName")
    /\ (truthy (dict_get info "longName") = false ->
        truthy (dict_get info "shortName") = false ->
        company_name r = PStr sym).
Proof.
  intros Hr.
  destruct (record_from_accepted float_of_str yf sym r Hr)
    as (info & hist & Hi & _ & Hne & Hb).
  destruct (build_other_fields float_of_str _ _ _ _ _ Hne Hb) as (Hname & _).
  exists info. split; [exact Hi|]. rewrite Hname. unfold py_or.
  destruct (truthy (dict_get info "longName")) eqn:Hl; cbn.
  - rewrite Hl. repeat split; congruence.
  - destruct (truthy (dict_get info "shortName")) eqn:Hs;
      repeat split; congruence.
Qed.

Lemma company_name_resolution_witness :
  (exists r, get_stock_info no_float_of_str (yf_only "MSFT") "MSFT" = Some r
             /\ company_name r = PStr "Known Ltd")
  /\ (exists r, get_stock_info no_float_of_str (yf_live "msft.NS") "msft" = Some r
               /\ company_name r = PStr "msft").
Proof.
  split.
  - assert (Hr : exists r, get_stock_info no_float_of_str (yf_only "MSFT") "MSFT"
                           = Some r) by (vm_compute; eexists; reflexivity).
    destruct Hr as [r Hr]. exists r. split; [exact Hr|].
    destruct (company_name_resolution no_float_of_str (yf_only "MSFT") "MSFT" r Hr)
      as (info & Hi & Hlong & _).
    assert (Hn : normalized_symbol r = "MSFT").
    { vm_compute in Hr. injection Hr as <-. reflexivity. }
    rewrite Hn in Hi. cbn in Hi. injection Hi as <-.
    rewrite Hlong; reflexivity.
  - assert (Hr : exists r, get_stock_info no_float_of_str (yf_live "msft.NS") "msft"
                           = Some r) by (vm_compute; eexists; reflexivity).
    destruct Hr as [r Hr]. exists r. split; [exact Hr|].
    destruct (company_name_resolution no_float_of_str (yf_live "msft.NS") "msft" r Hr)
      as (info & Hi & _ & _ & Hraw).
    assert (Hn : normalized_symbol r = "msft.NS").
    { vm_compute in Hr. injection Hr as <-. reflexivity. }
    rewrite Hn in Hi. cbn in Hi. injection Hi as <-.
    apply Hraw; reflexivity.
Defined.

(** X6. The fundamentals, the market capitalisation, the currency and
    the exchange of a record are the snapshot's values wherever the
    snapshot has the key, a value of [None] included, and ['N/A'],
    ['USD'] and ['Unknown'] where it has not; the volume is the
    snapshot's, or the volume of the last row of the history. *)
Theorem snapshot_fields_pass_through (float_of_str : string -> option float)
    (yf : yfinance) (sym : string) (r : stock_data) :
  get_stock_info float_of_str yf sym = Some r ->
  exists info hist b,
    ticker_info yf (normalized_symbol r) = Some info
    /\ ticker_history yf (normalized_symbol r) = Some hist
    /\ last hist = Some b
    /\ pe_ratio r = default (PStr "N/A") (info !! "trailingPE")
    /\ forward_pe r = default (PStr "N/A") (info !! "forwardPE")
    /\ price_to_book r = default (PStr "N/A") (info !! "priceToBook")
    /\ debt_to_equity r = default (PStr "N/A") (info !! "debtToEquity")
    /\ market_cap r = default (PStr "N/A") (info !! "marketCap")
    /\ currency r = default (PStr "USD") (info !! "currency")
    /\ exchange r = default (PStr "Unknown") (info !! "exchange")
    /\ volume r = default (PNum (Volume b)) (info !! "volume").
Proof.
  intros Hr.
  destruct (record_from_accepted float_of_str yf sym r Hr)
    as (info & hist & Hi & Hh & Hne & Hb).
  destruct (build_other_fields float_of_str _ _ _ _ _ Hne Hb)
    as (_ & H1 & H2 & H3 & H4 & H5 & H6 & H7 & b & Hl & H8).
  exists info, hist, b. unfold dict_get_or in *. tauto.
Qed.

Lemma snapshot_fields_pass_through_witness :
  exists r, get_stock_info no_float_of_str (yf_live "MSFT") "MSFT" = Some r
            /\ pe_ratio r = PStr "N/A" /\ currency r = PStr "USD"
            /\ volume r = PNum 1000%float.
Proof.
  assert (Hr : exists r, get_stock_info no_float_of_str (yf_live "MSFT") "MSFT"
                         = Some r) by (vm_compute; eexists; reflexivity).
  destruct Hr as [r Hr]. exists r. split; [exact Hr|].
  destruct (snapshot_fields_pass_through no_float_of_str (yf_live "MSFT") "MSFT" r Hr)
    as (info & hist & b & Hi & Hh & Hl & Hpe & _ & _ & _ & _ & Hcur & _ & Hvol).
  assert (Hn : normalized_symbol r = "MSFT").
  { vm_compute in Hr. injection Hr as <-. reflexivity. }
  rewrite Hn in Hi, Hh. cbn in Hi, Hh. injection Hi as <-. injection Hh as <-.
  vm_compute in Hl. injection Hl as <-.
  rewrite Hpe, Hcur, Hvol. repeat split.
Defined.

(** ** The whole batch *)

(** X7. The result of [analyze_stocks] is empty exactly when the fetch
    of every requested symbol returns [None]; in particular it is empty
    for an empty list of symbols. *)
Theorem analyze_stocks_empty_iff (float_of_str : string -> option float)
    (yf : yfinance) (symbols : list string) :
  analyze_stocks float_of_str yf symbols = ∅ <->
  forall s, s ∈ symbols -> get_stock_info float_of_str yf s = None.
Proof.
  rewrite map_empty. split.
  - intros H s Hs. specialize (H s).
    rewrite analyze_stocks_lookup, decide_True in H by exact Hs. exact H.
  - intros H s. rewrite analyze_stocks_lookup.
    destruct (decide (s ∈ symbols)) as [Hs|]; [apply H, Hs|reflexivity].
Qed.

(** ** More on the correlation engine *)

Lemma usable_idem (sd : gmap string stock_data) : usable (usable sd) = usable sd.
Proof.
  unfold usable. apply map_eq. intros s. rewrite !map_lookup_filter.
  destruct (sd !! s) as [r|]; [|reflexivity]. cbn.
  destruct (decide (price_history r <> [])) as [H|H].
  - rewrite option_guard_True by exact H. cbn.
    rewrite option_guard_True by exact H. reflexivity.
  - rewrite option_guard_False by exact H. reflexivity.
Qed.

(** X8. Records with an empty price history have no influence on the
    correlation result: it is the result for the usable records alone. *)
Theorem correlations_ignore_empty_histories (sd : gmap string stock_data) :
  calculate_correlations sd = calculate_correlations (usable sd).
Proof.
  assert (Hpd : price_data (usable sd) = price_data sd).
  { rewrite !price_data_usable, usable_idem. reflexivity. }
  unfold calculate_correlations, aligned_prices. rewrite Hpd. reflexivity.
Qed.

Lemma size_two_distinct {A : Type} (m : gmap string A) :
  (2 <= size m)%nat ->
  exists i j x y, i <> j /\ m !! i = Some x /\ m !! j = Some y.
Proof.
  intros Hsize. rewrite <- length_map_to_list in Hsize.
  pose proof (NoDup_fst_map_to_list m) as Hnd.
  assert (Hel : forall p, p ∈ map_to_list m -> m !! p.1 = Some p.2).
  { intros [i x] Hp. apply elem_of_map_to_list. exact Hp. }
  destruct (map_to_list m) as [|[i x] [|[j y] l]]; cbn in Hsize; try lia.
  exists i, j, x, y. split; [|split].
  - intros ->. cbn in Hnd. apply NoDup_cons in Hnd as [Hn _].
    apply Hn, list_elem_of_here.
  - apply (Hel (i, x)), list_elem_of_here.
  - apply (Hel (j, y)), list_elem_of_further, list_elem_of_here.
Qed.

(** X9. When at most one of the requested symbols can be fetched, the
    batch has no correlation matrix; in particular a batch of a single
    symbol, or one in which every fetch fails, has none. *)
Theorem correlations_need_two_successes (float_of_str : string -> option float)
    (yf : yfinance) (symbols : list string) :
  (forall s1 s2, s1 ∈ symbols -> s2 ∈ symbols ->
     get_stock_info float_of_str yf s1 <> None ->
     get_stock_info float_of_str yf s2 <> None -> s1 = s2) ->
  calculate_correlations (analyze_stocks float_of_str yf symbols) = None.
Proof.
  intros Hone. unfold calculate_correlations.
  rewrite aligned_prices_none; [reflexivity|]. left.
  set (sd := analyze_stocks float_of_str yf symbols).
  assert (Hle : (size (usable sd) <= size sd)%nat)
    by apply map_subseteq_size, map_filter_subseteq.
  destruct (Nat.lt_ge_cases (size sd) 2) as [Hlt|Hge]; [lia|].
  exfalso. destruct (size_two_distinct sd Hge) as (i & j & x & y & Hne & Hi & Hj).
  unfold sd in Hi, Hj. rewrite analyze_stocks_lookup in Hi, Hj.
  destruct (decide (i ∈ symbols)) as [Hin1|]; [|discriminate].
  destruct (decide (j ∈ symbols)) as [Hin2|]; [|discriminate].
  apply Hne, (Hone i j Hin1 Hin2); congruence.
Qed.

Lemma correlations_need_two_successes_witness :
  calculate_correlations
    (analyze_stocks no_float_of_str (yf_only "MSFT") ["AAPL"; "MSFT"]) = None
  /\ calculate_correlations (analyze_stocks no_float_of_str yf_silent ["A"; "B"])
     = None.
Proof.
  split.
  - apply correlations_need_two_successes.
    intros s1 s2 H1 H2.
    apply elem_of_cons in H1 as [->|H1]; [intros H; exfalso; apply H; reflexivity|].
    apply elem_of_cons in H2 as [->|H2];
      [intros _ H; exfalso; apply H; reflexivity|].
    apply list_elem_of_singleton in H1, H2. congruence.
  - apply correlations_need_two_successes.
    intros s1 s2 _ _ H. exfalso. apply H.
    apply (get_stock_info_all_empty no_float_of_str yf_silent s1).
    apply Forall_forall. intros c _. apply yf_silent_quiet.
Defined.












(** ** The news aggregator *)

Lemma fromkeys_acc (l keys : list string) :
  NoDup keys ->
  let r := foldl (fun keys x => if decide (x ∈ keys) then keys else keys ++ [x])
                 keys l in
  NoDup r /\ keys `prefix_of` r /\ (forall x, x ∈ r <-> x ∈ keys \/ x ∈ l).
Proof.
  revert keys. induction l as [|a l IH]; intros keys Hnd; cbn.
  - split; [exact Hnd|]. split; [reflexivity|].
    intros x. rewrite elem_of_nil. tauto.
  - destruct (decide (a ∈ keys)) as [Ha|Ha].
    + destruct (IH keys Hnd) as (H1 & H2 & H3).
      split; [exact H1|]. split; [exact H2|].
      intros x. rewrite H3, elem_of_cons. split; [tauto|].
      intros [H|[->|H]]; tauto.
    + assert (Hnd' : NoDup (keys ++ [a])).
      { apply NoDup_app. split; [exact Hnd|]. split; [|apply NoDup_singleton].
        intros x Hx Hxa. apply list_elem_of_singleton in Hxa. congruence. }
      destruct (IH (keys ++ [a]) Hnd') as (H1 & H2 & H3).
      split; [exact H1|]. split.
      * etransitivity; [|exact H2]. apply prefix_app_r. reflexivity.
      * intros x. rewrite H3, elem_of_app, list_elem_of_singleton, elem_of_cons.
        tauto.
Qed.

Lemma fromkeys_NoDup (l : list string) : NoDup (fromkeys l).
Proof. apply (fromkeys_acc l []). constructor. Qed.

Lemma fromkeys_elem (l : list string) (x : string) : x ∈ fromkeys l <-> x ∈ l.
Proof.
  destruct (fromkeys_acc l [] (NoDup_nil_2)) as (_ & _ & H).
  unfold fromkeys. rewrite H, elem_of_nil. tauto.
Qed.

Lemma fromkeys_app_acc (l1 l2 keys : list string) :
  foldl (fun keys x => if decide (x ∈ keys) then keys else keys ++ [x]) keys l1
  `prefix_of`
  foldl (fun keys x => if decide (x ∈ keys) then keys else keys ++ [x]) keys
        (l1 ++ l2).
Proof.
  rewrite foldl_app.
  set (k1 := foldl _ keys l1). clearbody k1.
  revert k1. induction l2 as [|a l2 IH]; intros k1; cbn; [reflexivity|].
  destruct (decide (a ∈ k1)); [apply IH|].
  etransitivity; [|apply IH]. apply prefix_app_r. reflexivity.
Qed.

Lemma fromkeys_prefix (l1 l2 : list string) :
  fromkeys l1 `prefix_of` fromkeys (l1 ++ l2).
Proof. apply fromkeys_app_acc. Qed.

Lemma py_take_prefix {A : Type} (n : Z) (l : list A) : py_take n l `prefix_of` l.
Proof. unfold py_take. destruct (0 <=? n)%Z; apply prefix_take. Qed.

Lemma py_take_length {A : Type} (n : Z) (l : list A) :
  (0 <= n)%Z -> (Z.of_nat (length (py_take n l)) <= n)%Z.
Proof.
  intros Hn. unfold py_take. destruct (Z.leb_spec 0 n); [|lia].
  rewrite length_take. lia.
Qed.

Lemma gather_prefix (max_headlines : Z) (sources : list (option (list string)))
    (acc : list string) :
  gather max_headlines sources acc `prefix_of` acc ++ all_headlines sources.
Proof.
  revert acc. induction sources as [|[hs|] rest IH]; intros acc; cbn [gather].
  - unfold all_headlines. cbn. rewrite app_nil_r. reflexivity.
  - cbv zeta. change (all_headlines (Some hs :: rest)) with (hs ++ all_headlines rest).
    rewrite app_assoc.
    destruct (max_headlines <=? _)%Z; [apply prefix_app_r; reflexivity|apply IH].
  - apply IH.
Qed.

Lemma prefix_NoDup {A : Type} (l k : list A) : l `prefix_of` k -> NoDup k -> NoDup l.
Proof. intros [k' ->] H. apply NoDup_app in H. tauto. Qed.

Lemma get_stock_news_unique_capped_aux (sources : list (option (list string)))
    (max_headlines : Z) :
  NoDup (get_stock_news sources max_headlines)
  /\ ((0 <= max_headlines)%Z ->
      (Z.of_nat (length (get_stock_news sources max_headlines)) <= max_headlines)%Z).
Proof.
  unfold get_stock_news. cbv zeta. split.
  - apply (prefix_NoDup _ (fromkeys (gather max_headlines sources []))).
    + apply py_take_prefix.
    + apply fromkeys_NoDup.
  - apply py_take_length.
Qed.

(** X12. The headlines returned by [get_stock_news] have no duplicates
    and are an initial segment of the headlines of the sources that did
    not raise, in the order in which the sources are called, each
    headline at its first occurrence; for a non-negative limit there are
    at most [max_headlines] of them. *)
Theorem get_stock_news_unique_capped (sources : list (option (list string)))
    (max_headlines : Z) :
  NoDup (get_stock_news sources max_headlines)
  /\ get_stock_news sources max_headlines `prefix_of` fromkeys (all_headlines sources)
  /\ ((0 <= max_headlines)%Z ->
      (Z.of_nat (length (get_stock_news sources max_headlines)) <= max_headlines)%Z).
Proof.
  unfold get_stock_news. cbv zeta.
  assert (Hpre : py_take max_headlines (fromkeys (gather max_headlines sources []))
                 `prefix_of` fromkeys (all_headlines sources)).
  { etransitivity; [apply py_take_prefix|].
    destruct (gather_prefix max_headlines sources []) as [rest Hrest].
    cbn [app] in Hrest. rewrite Hrest. apply fromkeys_prefix. }
  split; [|split].
  - apply (prefix_NoDup _ _ Hpre), fromkeys_NoDup.
  - exact Hpre.
  - apply py_take_length.
Qed.

Lemma gather_raise_empty (max_headlines : Z)
    (pre post : list (option (list string))) (acc : list string) :
  (Z.of_nat (length acc) < max_headlines)%Z ->
  gather max_headlines (pre ++ None :: post) acc
  = gather max_headlines (pre ++ Some [] :: post) acc.
Proof.
  revert acc. induction pre as [|[hs|] pre IH]; intros acc Hacc; cbn [app gather].
  - cbv zeta. rewrite app_nil_r.
    destruct (Z.leb_spec max_headlines (Z.of_nat (length acc))); [lia|reflexivity].
  - cbv zeta.
    destruct (Z.leb_spec max_headlines (Z.of_nat (length (acc ++ hs))));
      [reflexivity|apply IH; assumption].
  - apply IH, Hacc.
Qed.

(** X13. For a positive limit, a news source that raises has the same
    effect on the result as a source that returns no headline: the
    sources after it are still called. *)
Theorem news_source_failure_is_skipped (pre post : list (option (list string)))
    (max_headlines : Z) :
  (0 < max_headlines)%Z ->
  get_stock_news (pre ++ None :: post) max_headlines
  = get_stock_news (pre ++ Some [] :: post) max_headlines.
Proof.
  intros Hmax. unfold get_stock_news. cbv zeta.
  rewrite (gather_raise_empty max_headlines pre post []); [reflexivity|].
  cbn. lia.
Qed.

Lemma news_source_failure_is_skipped_witness :
  get_stock_news [None; Some ["Shares of Acme rise after earnings"]] 10
  = ["Shares of Acme rise after earnings"].
Proof.
  transitivity (get_stock_news
                  ([] ++ Some [] :: [Some ["Shares of Acme rise after earnings"]]) 10);
    [|reflexivity].
  apply (news_source_failure_is_skipped []
           [Some ["Shares of Acme rise after earnings"]] 10). lia.
Defined.

Lemma gather_stops (max_headlines : Z)
    (pre post post' : list (option (list string))) (acc : list string) :
  (Z.of_nat (length acc) < max_headlines)%Z ->
  (max_headlines <= Z.of_nat (length acc + length (all_headlines pre)))%Z ->
  gather max_headlines (pre ++ post) acc = gather max_headlines (pre ++ post') acc.
Proof.
  revert acc. induction pre as [|[hs|] pre IH]; intros acc Hacc Htot; cbn [app gather].
  - cbn in Htot. lia.
  - cbv zeta.
    destruct (Z.leb_spec max_headlines (Z.of_nat (length (acc ++ hs))));
      [reflexivity|].
    apply IH; [assumption|].
    change (all_headlines (Some hs :: pre)) with (hs ++ all_headlines pre) in Htot.
    rewrite !length_app in *. lia.
  - apply IH; assumption.
Qed.

(** X14. For a positive limit, once the sources called so far have
    returned at least [max_headlines] headlines together, the result no
    longer depends on the remaining sources. *)
Theorem news_sources_after_limit_ignored (pre post post' : list (option (list string)))
    (max_headlines : Z) :
  (0 < max_headlines)%Z ->
  (max_headlines <= Z.of_nat (length (all_headlines pre)))%Z ->
  get_stock_news (pre ++ post) max_headlines
  = get_stock_news (pre ++ post') max_headlines.
Proof.
  intros Hmax Htot. unfold get_stock_news. cbv zeta.
  rewrite (gather_stops max_headlines pre post post' []); [reflexivity| |];
    cbn; lia.
Qed.

(** The limit is applied before duplicates are removed: two equal
    headlines from the first source fill a limit of 2, and the second
    source is not called. *)
Lemma news_sources_after_limit_ignored_witness :
  get_stock_news [Some ["Acme shares jump"; "Acme shares jump"];
                  Some ["Acme profit falls"]] 2
  = get_stock_news [Some ["Acme shares jump"; "Acme shares jump"]] 2
  /\ get_stock_news [Some ["Acme shares jump"; "Acme shares jump"];
                     Some ["Acme profit falls"]] 2 = ["Acme shares jump"].
Proof.
  split; [|reflexivity].
  apply (news_sources_after_limit_ignored
           [Some ["Acme shares jump"; "Acme shares jump"]]
           [Some ["Acme profit falls"]] [] 2); cbn; lia.
Defined.

(** ** Dictionaries built by a loop over the items of another *)

Lemma foldl_insert_lookup {A B : Type} (f : string -> A -> B)
    (step : gmap string B -> string * A -> gmap string B)
    (l : list (string * A)) (acc : gmap string B) (k : string) :
  (forall acc i x, step acc (i, x) = <[i := f i x]> acc) ->
  NoDup l.*1 ->
  foldl step acc l !! k =
    match (list_to_map l : gmap string A) !! k with
    | Some x => Some (f k x)
    | None => acc !! k
    end.
Proof.
  intros Hstep. revert acc. induction l as [|[i x] l IH]; intros acc Hnd.
  - reflexivity.
  - cbn [foldl]. cbn in Hnd. apply NoDup_cons in Hnd as [Hi Hnd].
    rewrite (IH _ Hnd), Hstep. cbn [list_to_map foldr].
    destruct (decide (i = k)) as [->|Hne].
    + rewrite (not_elem_of_list_to_map_1 l k Hi), !lookup_insert_eq. reflexivity.
    + rewrite !lookup_insert_ne by exact Hne. reflexivity.
Qed.

Lemma loop_over_items {A B : Type} (f : string -> A -> B)
    (step : gmap string B -> string * A -> gmap string B)
    (m : gmap string A) (k : string) :
  (forall acc i x, step acc (i, x) = <[i := f i x]> acc) ->
  foldl step ∅ (map_to_list m) !! k = f k <$> m !! k.
Proof.
  intros Hstep.
  rewrite (foldl_insert_lookup f step _ _ _ Hstep (NoDup_fst_map_to_list m)).
  rewrite list_to_map_to_list, lookup_empty.
  destruct (m !! k); reflexivity.
Qed.

(** X15. [get_news_summary] has an entry for exactly the stocks of its
    input; the entry of a stock counts its headlines and samples the
    first 3 of them, so the sample has [min 3 count] headlines; a stock
    without headlines has count 0 and an empty sample. *)
Theorem news_summary_entries (news_data : gmap string (list string)) (stock : string) :
  get_news_summary news_data !! stock
  = (fun headlines => (length headlines, take 3 headlines)) <$> news_data !! stock
  /\ forall count sample,
       get_news_summary news_data !! stock = Some (count, sample) ->
       length sample = Nat.min 3 count
       /\ exists headlines, news_data !! stock = Some headlines
                            /\ sample `prefix_of` headlines.
Proof.
  assert (Hlook : get_news_summary news_data !! stock
                  = (fun headlines => (length headlines, take 3 headlines))
                      <$> news_data !! stock).
  { unfold get_news_summary.
    apply (loop_over_items (fun _ headlines => (length headlines, take 3 headlines))).
    intros acc i [|h hs]; reflexivity. }
  split; [exact Hlook|].
  intros count sample. rewrite Hlook.
  destruct (news_data !! stock) as [hs|]; [|discriminate].
  cbn [fmap option_fmap option_map]. intros [= <- <-].
  split; [apply length_take|].
  exists hs. split; [reflexivity|apply prefix_take].
Qed.

(** X16. [get_performance_summary] has an entry for exactly the symbols
    of its input, carrying the record's company name, current price,
    six-month change and P/E ratio; on the result of [analyze_stocks] it
    therefore has an entry exactly for the requested symbols whose fetch
    succeeded. *)
Theorem performance_summary_entries (float_of_str : string -> option float)
    (yf : yfinance) (symbols : list string)
    (sd : gmap string stock_data) (s : string) :
  get_performance_summary sd !! s
  = (fun data => {| perf_company := company_name data;
                    perf_price := current_price data;
                    perf_change := six_month_change data;
                    perf_pe_ratio := pe_ratio data |}) <$> sd !! s
  /\ (is_Some (get_performance_summary
                 (analyze_stocks float_of_str yf symbols) !! s)
      <-> s ∈ symbols /\ is_Some (get_stock_info float_of_str yf s)).
Proof.
  assert (Hlook : forall m : gmap string stock_data,
            get_performance_summary m !! s
            = (fun data => {| perf_company := company_name data;
                              perf_price := current_price data;
                              perf_change := six_month_change data;
                              perf_pe_ratio := pe_ratio data |}) <$> m !! s).
  { intros m. unfold get_performance_summary.
    apply (loop_over_items
             (fun _ data => {| perf_company := company_name data;
                               perf_price := current_price data;
                               perf_change := six_month_change data;
                               perf_pe_ratio := pe_ratio data |})).
    intros acc i x. reflexivity. }
  split; [apply Hlook|].
  rewrite Hlook, fmap_is_Some, analyze_stocks_lookup.
  destruct (decide (s ∈ symbols)) as [Hin|Hnin].
  - tauto.
  - split; [intros H; destruct (is_Some_None H)|tauto].
Qed.

(** ** The dashboard's analysis run *)

Lemma news_loop_lookup (news_sources : pyval -> string -> list (option (list string)))
    (sd : gmap string stock_data) (stocks : list string)
    (acc : gmap string (list string)) (s : string) :
  foldl (App.news_step news_sources sd) acc stocks !! s =
    if decide (s ∈ stocks) then
      Some (get_stock_news
              (news_sources (match sd !! s with
                             | Some data => company_name data
                             | None => PStr s
                             end) s) 10)
    else acc !! s.
Proof.
  revert acc. induction stocks as [|x stocks IH]; intros acc; cbn [foldl].
  - rewrite decide_False by apply not_elem_of_nil. reflexivity.
  - rewrite IH. destruct (decide (s ∈ stocks)) as [Hin|Hnin].
    + rewrite decide_True by (apply list_elem_of_further; exact Hin). reflexivity.
    + destruct (decide (x = s)) as [->|Hne].
      * rewrite decide_True by apply list_elem_of_here.
        unfold App.news_step. cbv zeta. apply lookup_insert_eq.
      * rewrite decide_False.
        -- unfold App.news_step. cbv zeta. apply lookup_insert_ne. exact Hne.
        -- intros H. apply elem_of_cons in H as [->|H]; [congruence|contradiction].
Qed.

(** X17. The dashboard's run gives up exactly when no requested symbol
    can be fetched.  Otherwise it stores the result of the analyzer's
    [analyze_stocks], the correlation result computed from it, and news
    for every requested symbol, fetched or not: at most 10 headlines
    without duplicates each, looked up under the record's company name,
    or under the symbol itself when the symbol has no record. *)
Theorem dashboard_run (float_of_str : string -> option float)
    (news_sources : pyval -> string -> list (option (list string)))
    (yf : yfinance) (stocks : list string) :
  (App.analyze_stocks float_of_str news_sources yf stocks = None <->
   forall s, s ∈ stocks -> get_stock_info float_of_str yf s = None)
  /\ forall st, App.analyze_stocks float_of_str news_sources yf stocks = Some st ->
       session_stock_data st = analyze_stocks float_of_str yf stocks
       /\ session_correlation_data st = calculate_correlations (session_stock_data st)
       /\ session_selected_stocks st = stocks
       /\ (forall s, is_Some (session_news_data st !! s) <-> s ∈ stocks)
       /\ (forall s headlines, session_news_data st !! s = Some headlines ->
             NoDup headlines /\ (length headlines <= 10)%nat
             /\ headlines
                = get_stock_news
                    (news_sources
                       (match session_stock_data st !! s with
                        | Some data => company_name data
                        | None => PStr s
                        end) s) 10).
Proof.
  unfold App.analyze_stocks. cbv zeta.
  set (sd := analyze_stocks float_of_str yf stocks).
  assert (Hempty : size sd = 0%nat <->
                   forall s, s ∈ stocks -> get_stock_info float_of_str yf s = None).
  { rewrite map_size_empty_iff, map_empty. unfold sd. split.
    - intros H s Hs. specialize (H s).
      rewrite analyze_stocks_lookup, decide_True in H by exact Hs. exact H.
    - intros H s. rewrite analyze_stocks_lookup.
      destruct (decide (s ∈ stocks)) as [Hs|]; [apply H, Hs|reflexivity]. }
  destruct (Nat.eqb_spec (size sd) 0) as [Hz|Hnz].
  - split; [tauto|discriminate].
  - split; [split; [discriminate|tauto]|].
    intros st [= <-]. cbn.
    split; [reflexivity|]. split; [reflexivity|]. split; [reflexivity|]. split.
    + intros s. rewrite news_loop_lookup.
      destruct (decide (s ∈ stocks)) as [Hs|Hs].
      * split; [tauto|eauto].
      * rewrite lookup_empty. split; [intros H; destruct (is_Some_None H)|tauto].
    + intros s headlines. rewrite news_loop_lookup.
      destruct (decide (s ∈ stocks)) as [Hs|Hs]; [|rewrite lookup_empty; discriminate].
      intros [= <-].
      match goal with |- NoDup (get_stock_news ?src _) /\ _ =>
        destruct (get_stock_news_unique_capped_aux src 10) as [Hnd Hlen] end.
      split; [exact Hnd|]. split; [|reflexivity].
      specialize (Hlen ltac:(lia)). lia.
Qed.

(** ** The report's list of strong stocks *)

Lemma score_two_needs_fundamental (data : option stock_data) :
  (2 <= conclusion_score data)%nat ->
  exists d, data = Some d
    /\ (number_below (pe_ratio d) 25 = true \/ number_above (roe d) 10 = true).
Proof.
  unfold conclusion_score. destruct data as [d|].
  - cbv zeta. intros H. exists d. split; [reflexivity|].
    destruct (number_below (pe_ratio d) 25); [left; reflexivity|].
    destruct (number_above (roe d) 10); [right; reflexivity|].
    exfalso. destruct (0 <? six_month_change d)%float; cbn in H; lia.
  - cbv zeta. intros H. exfalso. vm_compute in H. lia.
Qed.

(** X18. A stock is listed as fundamentally strong only if it is one of
    the requested stocks, has a record, and has a numeric P/E below 25
    or a numeric ROE above 10: a rising price alone never suffices, and
    a stock without a record is never listed.  For a record fetched by
    [get_stock_info] this means that the provider's snapshot has a
    numeric trailing P/E or a numeric, non-zero return on equity. *)
Theorem strong_stocks_need_fundamentals (float_of_str : string -> option float)
    (yf : yfinance) (stocks symbols : list string)
    (sd : gmap string stock_data) (s : string) :
  (s ∈ strong_stocks stocks sd ->
   s ∈ stocks
   /\ exists d, sd !! s = Some d
        /\ (number_below (pe_ratio d) 25 = true \/ number_above (roe d) 10 = true))
  /\ (s ∈ strong_stocks stocks (analyze_stocks float_of_str yf symbols) ->
      exists d info,
        get_stock_info float_of_str yf s = Some d
        /\ ticker_info yf (normalized_symbol d) = Some info
        /\ ((exists x, info !! "trailingPE" = Some (PNum x))
            \/ (exists x, info !! "returnOnEquity" = Some (PNum x)
                          /\ (x =? 0)%float = false))).
Proof.
  assert (Hfirst : forall m : gmap string stock_data,
            s ∈ strong_stocks stocks m ->
            s ∈ stocks
            /\ exists d, m !! s = Some d
                 /\ (number_below (pe_ratio d) 25 = true
                     \/ number_above (roe d) 10 = true)).
  { intros m Hs. unfold strong_stocks in Hs.
    apply list_elem_of_In, List.filter_In in Hs as [Hin Hscore].
    split; [apply list_elem_of_In, Hin|].
    apply score_two_needs_fundamental. apply Nat.leb_le. exact Hscore. }
  split; [apply Hfirst|].
  intros Hs. destruct (Hfirst _ Hs) as (_ & d & Hd & Hfund).
  rewrite analyze_stocks_lookup in Hd.
  destruct (decide (s ∈ symbols)); [|discriminate].
  destruct (record_from_accepted float_of_str yf s d Hd)
    as (info & hist & Hi & _ & Hne & Hb).
  exists d, info. split; [exact Hd|]. split; [exact Hi|].
  destruct (build_other_fields float_of_str _ _ _ _ _ Hne Hb) as (_ & Hpe & _).
  destruct (build_fields float_of_str _ _ _ _ _ Hb)
    as (_ & _ & _ & _ & _ & Hroe & _).
  destruct Hfund as [Hf|Hf].
  - left. rewrite Hpe in Hf. unfold dict_get_or in Hf.
    destruct (info !! "trailingPE") as [[|x|t]|]; try discriminate. eauto.
  - right. unfold percent_field, dict_get, dict_get_or in Hroe.
    destruct (info !! "returnOnEquity") as [[|x|t]|]; cbn in Hroe.
    + injection Hroe as Hroe. rewrite <- Hroe in Hf. discriminate.
    + destruct (x =? 0)%float eqn:Hx; cbn in Hroe.
      * injection Hroe as Hroe. rewrite <- Hroe in Hf. discriminate.
      * eauto.
    + destruct (negb (String.eqb t "")); cbn in Hroe;
        injection Hroe as Hroe; rewrite <- Hroe in Hf; discriminate.
    + injection Hroe as Hroe. rewrite <- Hroe in Hf. discriminate.
Qed.

Lemma strong_stocks_need_fundamentals_witness :
  strong_stocks ["MSFT"; "NONE"]
    (analyze_stocks no_float_of_str (yf_only "MSFT") ["MSFT"; "NONE"]) = []
  /\ ("MSFT" ∈ strong_stocks ["MSFT"]
        (analyze_stocks no_float_of_str (yf_only "MSFT") ["MSFT"]) -> False).
Proof.
  split; [vm_compute; reflexivity|].
  intros H.
  destruct (strong_stocks_need_fundamentals no_float_of_str (yf_only "MSFT")
              ["MSFT"] ["MSFT"]
              (analyze_stocks no_float_of_str (yf_only "MSFT") ["MSFT"]) "MSFT")
    as [_ Hsnap].
  destruct (Hsnap H) as (d & info & Hd & Hi & Hcase).
  assert (Hn : normalized_symbol d = "MSFT").
  { vm_compute in Hd. injection Hd as <-. reflexivity. }
  rewrite Hn in Hi. cbn in Hi. injection Hi as <-.
  destruct Hcase as [[x Hx]|[x [Hx _]]]; vm_compute in Hx; discriminate.
Defined.

(** ** Display of the record's metrics *)

(** X19. [format_metric] shows ['N/A'] for a dividend yield or an ROE
    that the provider reports as missing or zero, and for a P/E ratio
    that the provider omits or reports as [None]; a dividend-yield
    fraction that is present and not zero is shown as the formatted
    percentage followed by a percent sign. *)
Theorem format_metric_of_record (format_fixed : Z -> float -> option string)
    (float_of_str : string -> option float) (yf : yfinance) (sym : string)
    (r : stock_data) (is_percentage : bool) (decimal_places : Z) :
  get_stock_info float_of_str yf sym = Some r ->
  exists info,
    ticker_info yf (normalized_symbol r) = Some info
    /\ (missing_or_zero (info !! "dividendYield") ->
        format_metric format_fixed (dividend_yield r) is_percentage decimal_places
        = "N/A")
    /\ (missing_or_zero (info !! "returnOnEquity") ->
        format_metric format_fixed (roe r) is_percentage decimal_places = "N/A")
    /\ (info !! "trailingPE" = None \/ info !! "trailingPE" = Some PNone ->
        format_metric format_fixed (pe_ratio r) is_percentage decimal_places
        = "N/A")
    /\ (forall x text,
          info !! "dividendYield" = Some (PNum x) -> (x =? 0)%float = false ->
          format_fixed decimal_places (x * 100)%float = Some text ->
          format_metric format_fixed (dividend_yield r) true decimal_places
          = (text ++ "%")%string).
Proof.
  intros Hr.
  destruct (record_from_accepted float_of_str yf sym r Hr)
    as (info & hist & Hi & _ & Hne & Hb).
  destruct (build_fields float_of_str _ _ _ _ _ Hb)
    as (_ & _ & _ & _ & Hdy & Hroe & _).
  destruct (build_other_fields float_of_str _ _ _ _ _ Hne Hb) as (_ & Hpe & _).
  exists info. split; [exact Hi|]. repeat split.
  - intros Hm. rewrite (percent_field_unavailable _ _ Hm) in Hdy.
    injection Hdy as <-. reflexivity.
  - intros Hm. rewrite (percent_field_unavailable _ _ Hm) in Hroe.
    injection Hroe as <-. reflexivity.
  - intros [Hk|Hk]; rewrite Hpe; unfold dict_get_or; rewrite Hk; reflexivity.
  - intros x text Hk Hx Hfmt. rewrite (percent_field_number _ _ _ Hk Hx) in Hdy.
    injection Hdy as <-. unfold format_metric. cbn. rewrite Hfmt. reflexivity.
Qed.

Lemma format_metric_of_record_witness :
  exists r, get_stock_info no_float_of_str (yf_only "MSFT") "MSFT" = Some r
    /\ format_metric (fun _ _ => Some "2.50") (roe r) true 2 = "N/A"
    /\ format_metric (fun _ _ => Some "2.50") (pe_ratio r) false 2 = "N/A"
    /\ format_metric (fun _ _ => Some "2.50") (dividend_yield r) true 2 = "2.50%".
Proof.
  assert (Hr : exists r, get_stock_info no_float_of_str (yf_only "MSFT") "MSFT"
                         = Some r) by (vm_compute; eexists; reflexivity).
  destruct Hr as [r Hr]. exists r. split; [exact Hr|].
  destruct (format_metric_of_record (fun _ _ => Some "2.50") no_float_of_str
              (yf_only "MSFT") "MSFT" r true 2 Hr)
    as (info & Hi & _ & Hroe & _ & Hdy).
  destruct (format_metric_of_record (fun _ _ => Some "2.50") no_float_of_str
              (yf_only "MSFT") "MSFT" r false 2 Hr)
    as (info' & Hi' & _ & _ & Hpe & _).
  assert (Hn : normalized_symbol r = "MSFT").
  { vm_compute in Hr. injection Hr as <-. reflexivity. }
  rewrite Hn in Hi, Hi'. cbn in Hi, Hi'. injection Hi as <-. injection Hi' as <-.
  split; [apply Hroe; left; reflexivity|].
  split; [apply Hpe; left; reflexivity|].
  apply (Hdy 0x1.999999999999ap-6%float "2.50"); reflexivity.
Defined.

(** ** The news sources *)

Lemma keep_headline_proper (threshold : nat) (text headline : string) :
  keep_headline threshold text = Some headline -> proper_headline threshold headline.
Proof.
  unfold keep_headline. cbv zeta.
  destruct (negb _ && (threshold <? PyStr.len (PyStr.strip text))%nat) eqn:E;
    [|discriminate].
  intros [= <-]. apply andb_true_iff in E as [_ E]. apply Nat.ltb_lt in E.
  split; [apply strip_idem|exact E].
Qed.

Lemma omap_length_le {A B : Type} (f : A -> option B) (l : list A) :
  (length (omap f l) <= length l)%nat.
Proof.
  induction l as [|a l IH]; [reflexivity|].
  cbn. destruct (f a); cbn; lia.
Qed.

Lemma omap_Forall {A B : Type} (f : A -> option B) (P : B -> Prop) (l : list A) :
  (forall a b, f a = Some b -> P b) -> Forall P (omap f l).
Proof.
  intros H. induction l as [|a l IH]; [constructor|].
  cbn. destruct (f a) eqn:E; [constructor; eauto|exact IH].
Qed.

Lemma yahoo_fallback_spec (elements acc : list string) :
  (length acc < 5)%nat -> Forall (proper_headline 20) acc ->
  (length (yahoo_fallback elements acc) <= 5)%nat
  /\ Forall (proper_headline 20) (yahoo_fallback elements acc).
Proof.
  revert acc. induction elements as [|e rest IH]; intros acc Hlen Hall;
    cbn [yahoo_fallback].
  - split; [lia|exact Hall].
  - cbv zeta.
    destruct (negb (String.eqb (PyStr.strip e) "")
              && (20 <? PyStr.len (PyStr.strip e))%nat
              && existsb _ yahoo_keywords) eqn:E; [|apply IH; assumption].
    apply andb_true_iff in E as [E _]. apply andb_true_iff in E as [_ E].
    apply Nat.ltb_lt in E.
    assert (Hall' : Forall (proper_headline 20) (acc ++ [PyStr.strip e])).
    { apply Forall_app. split; [exact Hall|].
      constructor; [|constructor]. split; [apply strip_idem|exact E]. }
    destruct (Nat.leb_spec 5 (length (acc ++ [PyStr.strip e]))) as [Hge|Hlt].
    + split; [|exact Hall']. rewrite length_app in *. cbn in *. lia.
    + apply IH; assumption.
Qed.

Lemma first_title_proper (elements : list string) (headline : string) :
  first_title elements = Some headline -> proper_headline 15 headline.
Proof.
  induction elements as [|e rest IH]; cbn; [discriminate|].
  destruct (keep_headline 15 e) eqn:E; [|exact IH].
  intros [= <-]. apply (keep_headline_proper _ _ _ E).
Qed.

Lemma bing_loop_spec (cards : list (list string)) (acc : list string) :
  (length acc < 5)%nat -> Forall (proper_headline 15) acc ->
  (length (bing_loop cards acc) <= 5)%nat
  /\ Forall (proper_headline 15) (bing_loop cards acc).
Proof.
  revert acc. induction cards as [|card rest IH]; intros acc Hlen Hall;
    cbn [bing_loop].
  - split; [lia|exact Hall].
  - cbv zeta. destruct (first_title card) as [h|] eqn:E.
    + assert (Hall' : Forall (proper_headline 15) (acc ++ [h])).
      { apply Forall_app. split; [exact Hall|].
        constructor; [|constructor]. apply (first_title_proper _ _ E). }
      destruct (Nat.leb_spec 5 (length (acc ++ [h]))) as [Hge|Hlt].
      * split; [|exact Hall']. rewrite length_app in *. cbn in *. lia.
      * apply IH; assumption.
    + destruct (Nat.leb_spec 5 (length acc)); [lia|]. apply IH; assumption.
Qed.

Lemma proper_headline_weaken (a b : nat) (h : string) :
  (a <= b)%nat -> proper_headline b h -> proper_headline a h.
Proof. intros Hab [H1 H2]. split; [exact H1|lia]. Qed.

(** X20. Each of the three news sources yields at most 5 headlines, and
    every headline it yields is trimmed and longer than 10 characters
    (longer than 15 for Bing News). *)
Theorem news_sources_capped (items : list (option string))
    (news_elements all_elements : list string) (news_cards : list (list string)) :
  ((length (google_headlines items) <= 5)%nat
   /\ Forall (proper_headline 10) (google_headlines items))
  /\ ((length (yahoo_headlines news_elements all_elements) <= 5)%nat
      /\ Forall (proper_headline 10) (yahoo_headlines news_elements all_elements))
  /\ ((length (bing_headlines news_cards) <= 5)%nat
      /\ Forall (proper_headline 15) (bing_headlines news_cards)).
Proof.
  split; [|split].
  - unfold google_headlines. split.
    + etransitivity; [apply omap_length_le|]. rewrite length_take. lia.
    + apply omap_Forall. intros [t|] b; cbn; [|discriminate].
      apply keep_headline_proper.
  - unfold yahoo_headlines. cbv zeta.
    destruct (is_empty (omap (keep_headline 10) (take 5 news_elements))).
    + destruct (yahoo_fallback_spec (take 10 all_elements) []) as [Hlen Hall];
        [cbn; lia|constructor|].
      split; [exact Hlen|].
      apply (Forall_impl _ _ _ Hall). intros h.
      apply proper_headline_weaken. lia.
    + split.
      * etransitivity; [apply omap_length_le|]. rewrite length_take. lia.
      * apply omap_Forall. intros a b. apply keep_headline_proper.
  - unfold bing_headlines. apply bing_loop_spec; [cbn; lia|constructor].
Qed.

(** ** News sentiment *)

Section SentimentFacts.

Variable lower : string -> string.

Lemma keyword_count_cons (keywords : list string) (h : string) (hs : list string) :
  keyword_count lower keywords (h :: hs)
  = (length (List.filter (fun keyword => PyStr.contains keyword (lower h))
                         keywords)
     + keyword_count lower keywords hs)%nat.
Proof. unfold keyword_count. cbn. apply length_app. Qed.

Lemma keyword_count_perm (keywords hs hs' : list string) :
  hs ≡ₚ hs' -> keyword_count lower keywords hs = keyword_count lower keywords hs'.
Proof.
  intros H. unfold keyword_count. apply Permutation_length.
  rewrite H. reflexivity.
Qed.

Lemma keyword_count_lowered (keywords hs hs' : list string) :
  map lower hs = map lower hs' ->
  keyword_count lower keywords hs = keyword_count lower keywords hs'.
Proof.
  revert hs'. induction hs as [|h hs IH]; intros [|h' hs'] H;
    try discriminate; [reflexivity|].
  cbn [map] in H. injection H as Hh Hhs.
  rewrite !keyword_count_cons, Hh, (IH hs' Hhs). reflexivity.
Qed.

End SentimentFacts.

Lemma filter_none {A : Type} (f : A -> bool) (l : list A) :
  (forall x, In x l -> f x = false) -> List.filter f l = [].
Proof.
  induction l as [|a l IH]; intros H; [reflexivity|].
  cbn. rewrite (H a) by (left; reflexivity).
  apply IH. intros x Hx. apply H. right. exact Hx.
Qed.

(** X21. Whatever [str.lower] does, the sentiment the report states for
    a stock does not depend on the order of its headlines; it depends on
    the headlines only through their lower-cased texts; and a headline
    whose lower-cased text contains none of the keywords does not change
    it. *)
Theorem news_sentiment_invariant (lower : string -> string)
    (headlines headlines' : list string) (headline : string) :
  (headlines ≡ₚ headlines' ->
     news_sentiment lower headlines = news_sentiment lower headlines')
  /\ (map lower headlines = map lower headlines' ->
       news_sentiment lower headlines = news_sentiment lower headlines')
  /\ ((forall keyword, In keyword (positive_keywords ++ negative_keywords) ->
         PyStr.contains keyword (lower headline) = false) ->
      news_sentiment lower (headline :: headlines) = news_sentiment lower headlines).
Proof.
  split; [|split].
  - intros H. unfold news_sentiment.
    rewrite !(keyword_count_perm _ _ _ _ H). reflexivity.
  - intros H. unfold news_sentiment.
    rewrite !(keyword_count_lowered _ _ _ _ H). reflexivity.
  - intros Hnone. unfold news_sentiment. rewrite !keyword_count_cons.
    rewrite !filter_none; [reflexivity| |];
      intros k Hk; apply Hnone, in_or_app; [left|right]; exact Hk.
Qed.

(** On ASCII headlines [str.lower] is [py_lower]. *)
Lemma news_sentiment_invariant_witness :
  news_sentiment py_lower
    ["Quarterly results due on Monday"; "Acme profit beats forecasts"]
  = "predominantly positive".
Proof.
  destruct (news_sentiment_invariant py_lower ["Acme profit beats forecasts"] []
              "Quarterly results due on Monday") as (_ & _ & Hneutral).
  rewrite Hneutral; [reflexivity|].
  intros keyword Hk. vm_compute in Hk.
  repeat (destruct Hk as [<-|Hk]; [reflexivity|]). destruct Hk.
Defined.
